(** * thumbnails.py: slide thumbnails composed into a contact sheet

    A shallow embedding of [powerpoint-toolkit/scripts/thumbnails.py]
    ([generate_thumbnails] and [main]) and the properties of its grid
    geometry, its fallback logic and its error reporting.

    Python integers are [Z].  Python [str] values are [string], read as
    sequences of code points below 256.  The operating system (external
    converters, the scratch directory, the image decoder, the memory for
    the canvas, the disk the result is saved to) is a [World] record of
    oracles; a run threads the listing of the scratch directory and a
    chronological log of its interactions through a small monad with early
    return and exceptions.  [main] is the program from line 94 on, once
    [parse_args] has returned the arguments. *)

From Stdlib Require Import ZArith Nnat List String Ascii Bool Lia DecimalString.
From Stdlib Require Import Sorted Permutation DecimalNat DecimalPos DecimalZ.
Import ListNotations.

Local Open Scope Z_scope.
Local Open Scope string_scope.

(** ** Python primitives *)

Module Py.

(** [str(n)] for an integer. *)
Definition str (n : Z) : string := NilZero.string_of_int (Z.to_int n).

(** The integers binary64 holds exactly. *)
Definition exact (z : Z) : Prop := - 2 ^ 53 < z < 2 ^ 53.

(** [math.ceil(n / c)] for integers [n] and [c <> 0].  The source divides
    in binary64 and rounds up; for [exact] operands the quotient is
    correctly rounded and its ceiling is the exact one, which is what is
    computed here.  Beyond that range the source may round differently
    (a quotient below the smallest binary64 becomes 0.0); the statements
    on this function keep its operands [exact]. *)
Definition ceil_div (n c : Z) : Z := - ((- n) / c).

(** [int(a / b)] for integers [a] and [b <> 0]: truncation toward zero,
    for [exact] operands as above. *)
Definition int_div (a b : Z) : Z := Z.quot a b.

(** [s.split(sep)] for a one-character separator. *)
Fixpoint split (sep : ascii) (s : string) : list string :=
  match s with
  | EmptyString => [EmptyString]
  | String a t =>
      if Ascii.eqb a sep then EmptyString :: split sep t
      else
        match split sep t with
        | h :: r => String a h :: r
        | [] => [String a EmptyString]
        end
  end.

(** [sorted] on strings (code-point order), as a stable insertion sort. *)
Fixpoint insert_sorted (s : string) (l : list string) : list string :=
  match l with
  | [] => [s]
  | h :: t => if String.ltb s h then s :: l else h :: insert_sorted s t
  end.

Definition sorted (l : list string) : list string :=
  fold_right insert_sorted [] l.

(** [s.endswith(suf)]. *)
Fixpoint ends_with (suf s : string) : bool :=
  String.eqb s suf ||
  match s with
  | EmptyString => false
  | String _ t => ends_with suf t
  end.

(** [s.removeprefix(p)] when [s] starts with [p]. *)
Fixpoint strip_prefix (p s : string) : option string :=
  match p, s with
  | EmptyString, _ => Some s
  | String a p', String b s' =>
      if Ascii.eqb a b then strip_prefix p' s' else None
  | String _ _, EmptyString => None
  end.

(** Split at the last occurrence of a character ([str.rpartition]). *)
Fixpoint rpartition (c : ascii) (s : string) : option (string * string) :=
  match s with
  | EmptyString => None
  | String a t =>
      match rpartition c t with
      | Some (pre, post) => Some (String a pre, post)
      | None => if Ascii.eqb a c then Some (EmptyString, t) else None
      end
  end.

End Py.

(** ** pathlib *)

Module Pathlib.

(** A POSIX path as pathlib parses it: a root and the components that
    follow.  Two leading slashes are a root of their own; one, or three
    and more, are the root [/]. *)
Definition root (p : string) : string :=
  match p with
  | String "/" (String "/" (String "/" _)) => "/"
  | String "/" (String "/" _) => "//"
  | String "/" _ => "/"
  | _ => ""
  end.

(** Empty components and [.] are dropped, [..] is kept. *)
Definition parts (p : string) : list string :=
  filter (fun c => negb (String.eqb c "" || String.eqb c "."))
         (Py.split "/" p).

(** [str] of a path given by root and components. *)
Definition render (r : string) (components : list string) : string :=
  match r, components with
  | EmptyString, [] => "."
  | _, _ => r ++ String.concat "/" components
  end.

(** [str(Path(p))]. *)
Definition normal (p : string) : string := render (root p) (parts p).

(** [str(Path(p).absolute())] in the working directory [cwd]: a rooted
    path is taken as it is, any other is appended to [cwd]; nothing is
    resolved. *)
Definition absolute (cwd p : string) : string :=
  match root p with
  | EmptyString => render (root cwd) (parts cwd ++ parts p)
  | r => render r (parts p)
  end.

(** [Path(d) / name]. *)
Definition join (d name : string) : string := d ++ "/" ++ name.

(** [Path(p).name]: the last component, empty for a bare root. *)
Definition name (p : string) : string := last (parts p) "".

(** [Path(n).with_suffix(suffix).name] for a bare name [n]; [None] stands
    for the [ValueError] raised on an empty name.  The old suffix is what
    follows the last dot, unless that dot is first or last in the name. *)
Definition with_suffix (n suffix : string) : option string :=
  match n with
  | EmptyString => None
  | _ =>
      match Py.rpartition "." n with
      | Some (String a pre, String b post) => Some (String a pre ++ suffix)
      | _ => Some (n ++ suffix)
      end
  end.

(** The shell patterns the script uses all have the shape [pre*suf]. *)
Record Pattern := { pat_prefix : string; pat_suffix : string }.

Definition fnmatch (pat : Pattern) (n : string) : bool :=
  match Py.strip_prefix (pat_prefix pat) n with
  | Some rest => Py.ends_with (pat_suffix pat) rest
  | None => false
  end.

(** [Path(d).glob(pat)] over the listing of [d], in listing order. *)
Definition glob (d : string) (pat : Pattern) (listing : list string)
  : list string :=
  map (join d) (filter (fnmatch pat) listing).

End Pathlib.

(** ** json *)

Module Json.

Inductive Value :=
| JStr (s : string)
| JInt (n : Z).

(** A Python [dict] with string keys, in insertion order. *)
Definition Dict := list (string * Value).

Definition has_key (k : string) (d : Dict) : bool :=
  existsb (fun kv => String.eqb (fst kv) k) d.

Definition quote : string := String "034" EmptyString.
Definition newline : string := String "010" EmptyString.

Definition hex_digit (n : nat) : ascii :=
  match n with
  | 0 => "0" | 1 => "1" | 2 => "2" | 3 => "3" | 4 => "4" | 5 => "5"
  | 6 => "6" | 7 => "7" | 8 => "8" | 9 => "9" | 10 => "a" | 11 => "b"
  | 12 => "c" | 13 => "d" | 14 => "e" | _ => "f"
  end%nat%char.

(** The escape of one character under [ensure_ascii=True]. *)
Definition escape_char (c : ascii) : string :=
  let n := nat_of_ascii c in
  if Ascii.eqb c "034" then String "\" quote
  else if Ascii.eqb c "\" then "\\"
  else if Ascii.eqb c "010" then "\n"
  else if Ascii.eqb c "013" then "\r"
  else if Ascii.eqb c "009" then "\t"
  else if Ascii.eqb c "008" then "\b"
  else if Ascii.eqb c "012" then "\f"
  else if ((32 <=? n) && (n <=? 126))%nat then String c EmptyString
  else "\u00" ++ String (hex_digit (n / 16)) (String (hex_digit (n mod 16)) EmptyString).

Fixpoint escape (s : string) : string :=
  match s with
  | EmptyString => EmptyString
  | String c t => escape_char c ++ escape t
  end.

Definition dumps_value (v : Value) : string :=
  match v with
  | JStr s => quote ++ escape s ++ quote
  | JInt n => Py.str n
  end.

Definition dumps_item (kv : string * Value) : string :=
  "  " ++ quote ++ escape (fst kv) ++ quote ++ ": " ++ dumps_value (snd kv).

(** [json.dumps(d, indent=2)] for a flat dictionary. *)
Definition dumps (d : Dict) : string :=
  match d with
  | [] => "{}"
  | _ => "{" ++ newline
         ++ String.concat ("," ++ newline) (map dumps_item d)
         ++ newline ++ "}"
  end.

End Json.

(** ** Exceptions *)

Module Exc.

Inductive Exn :=
| TimeoutExpired
| FileNotFoundError
| UnicodeDecodeError
| UnidentifiedImageError
| ZeroDivisionError
| ValueError
| OverflowError
| MemoryError
| OSError
| IndexError.

(** A pure computation that may raise. *)
Inductive Try (A : Type) :=
| Ok (a : A)
| Err (e : Exn).
Arguments Ok {A} a.
Arguments Err {A} e.

End Exc.

(** ** PIL *)

Module PIL.

Export Exc.

(** Pixel content, kept symbolic: what was decoded and how it was
    resampled. *)
Inductive Pixels :=
| Decoded (file : string)
| Resampled (src : Pixels) (w h : Z) (filter : string).

(** An opened image.  [Image.open] reads the header only; [defect] is
    what reading the pixels raises when the rest of the file is broken. *)
Record Image := {
  width : Z;
  height : Z;
  pixels : Pixels;
  defect : option Exn
}.

(** The largest C [int], which Pillow keeps sizes in. *)
Definition int_max : Z := 2147483647.

(** The image [img.resize((w, h), filter)] returns when it returns. *)
Definition resize (img : Image) (w h : Z) (filter : string) : Image :=
  {| width := w; height := h; pixels := Resampled (pixels img) w h filter;
     defect := None |}.

(** [img.resize((w, h), filter)]: the pixels are read first, then the size
    is handed to C, which wants both sides to be at least 1. *)
Definition Image_resize (img : Image) (w h : Z) (filter : string) : Try Image :=
  match defect img with
  | Some e => Err e
  | None =>
      if ((int_max <? w) || (int_max <? h)
          || (w <? - int_max - 1) || (h <? - int_max - 1))%Z
      then Err OverflowError
      else if ((w <? 1) || (h <? 1))%Z then Err ValueError
      else Ok (resize img w h filter)
  end.

Inductive DrawOp :=
| Paste (im : Image) (x y : Z)
| Text (x y : Z) (text : string) (fill : string).

Record Canvas := {
  canvas_w : Z;
  canvas_h : Z;
  background : string;
  ops : list DrawOp
}.

(** [Image.new(mode, (w, h), color)].  Pillow refuses a negative side
    with a [ValueError]; a side beyond the C [int] range cannot be passed
    on ([OverflowError]); and the storage has to be there: [alloc w h]
    tells whether it is ([MemoryError] if not). *)
Definition new (alloc : Z -> Z -> bool) (w h : Z) (color : string) : Try Canvas :=
  if ((w <? 0) || (h <? 0))%Z then Err ValueError
  else if ((int_max <? w) || (int_max <? h))%Z then Err OverflowError
  else if alloc w h
       then Ok {| canvas_w := w; canvas_h := h; background := color; ops := [] |}
       else Err MemoryError.

(** An opened picture has positive sides that fit a C [int]. *)
Definition valid (img : Image) : Prop :=
  0 < width img <= int_max /\ 0 < height img <= int_max.

Definition draw (c : Canvas) (op : DrawOp) : Canvas :=
  {| canvas_w := canvas_w c; canvas_h := canvas_h c;
     background := background c; ops := (ops c ++ [op])%list |}.

End PIL.

(** ** The operating system and the run monad *)

Module Run.

Export Exc.

(** What [subprocess.run(argv, capture_output=True, text=True, timeout=60)]
    comes back with: a completed process together with the listing of the
    scratch directory it leaves, a timeout, a failure to start, or a
    process whose output is not text in the locale's encoding. *)
Inductive ProcResult :=
| Completed (returncode : Z) (stdout stderr : string) (listing : list string)
| TimedOut
| NotStarted
| Undecodable.

Record World := {
  cwd : string;
  (** [Path(p).exists()] *)
  path_exists : string -> bool;
  (** the directory [tempfile.TemporaryDirectory()] creates *)
  mkdtemp : string;
  (** an external command, run on the current listing of the scratch
      directory *)
  run : list string -> list string -> ProcResult;
  (** [Image.open(path)]; [None] when Pillow cannot decode the file *)
  image_open : string -> option PIL.Image;
  (** whether there is storage for a canvas of that width and height *)
  can_allocate : Z -> Z -> bool;
  (** [grid.save(path, "JPEG", quality=90)]: [None] when the file is
      written, else what the call raises (a path that cannot be written,
      a canvas the encoder refuses) *)
  save : string -> PIL.Canvas -> option Exn
}.

(** [Save] is a file written; [SaveFailed] is a [grid.save] that raised,
    with whatever it left at the path. *)
Inductive Event :=
| Spawn (argv : list string) (r : ProcResult)
| Save (path format : string) (quality : Z) (c : PIL.Canvas)
| SaveFailed (path format : string) (quality : Z) (c : PIL.Canvas) (e : Exn)
| Stdout (text : string)
| Traceback (e : Exn)
| Rmtree (dir : string).

(** The state of a run: the listing of the scratch directory and the log
    of events, oldest first. *)
Record Proc := { listing : list string; log : list Event }.

(** How a block of statements ends. *)
Inductive Outcome (A : Type) :=
| Normal (a : A)
| Return (d : Json.Dict)
| Raise (e : Exn).
Arguments Normal {A} a.
Arguments Return {A} d.
Arguments Raise {A} e.

Definition M (A : Type) : Type := Proc -> Outcome A * Proc.

Definition ret {A} (a : A) : M A := fun s => (Normal a, s).

Definition bind {A B} (c : M A) (k : A -> M B) : M B :=
  fun s =>
    match c s with
    | (Normal a, s') => k a s'
    | (Return d, s') => (Return d, s')
    | (Raise e, s') => (Raise e, s')
    end.

Definition return_ {A} (d : Json.Dict) : M A := fun s => (Return d, s).

Definition raise {A} (e : Exn) : M A := fun s => (Raise e, s).

Definition emit (e : Event) : M unit :=
  fun s => (Normal tt, {| listing := listing s; log := (log s ++ [e])%list |}).

Definition listdir : M (list string) := fun s => (Normal (listing s), s).

Definition lift {A} (t : Try A) : M A :=
  match t with
  | Ok a => ret a
  | Err e => raise e
  end.

(** The result of a function call. *)
Inductive Result :=
| Returned (d : Json.Dict)
| Raised (e : Exn).

Definition call (body : M Json.Dict) (s : Proc) : Result * Proc :=
  match body s with
  | (Normal d, s') => (Returned d, s')
  | (Return d, s') => (Returned d, s')
  | (Raise e, s') => (Raised e, s')
  end.

Record CompletedProcess := {
  returncode : Z;
  stdout : string;
  stderr : string
}.

Definition subprocess_run (w : World) (argv : list string)
  : M CompletedProcess :=
  fun s =>
    let r := run w argv (listing s) in
    let log' := (log s ++ [Spawn argv r])%list in
    match r with
    | Completed rc out err ls =>
        (Normal {| returncode := rc; stdout := out; stderr := err |},
         {| listing := ls; log := log' |})
    | TimedOut => (Raise TimeoutExpired, {| listing := listing s; log := log' |})
    | NotStarted => (Raise FileNotFoundError, {| listing := listing s; log := log' |})
    | Undecodable => (Raise UnicodeDecodeError, {| listing := listing s; log := log' |})
    end.

(** [grid.save(path, format, quality=quality)]. *)
Definition grid_save (w : World) (path format : string) (quality : Z)
  (grid : PIL.Canvas) : M unit :=
  fun s =>
    match save w path grid with
    | None =>
        (Normal tt,
         {| listing := listing s;
            log := (log s ++ [Save path format quality grid])%list |})
    | Some e =>
        (Raise e,
         {| listing := listing s;
            log := (log s ++ [SaveFailed path format quality grid e])%list |})
    end.

(** [with tempfile.TemporaryDirectory() as tmpdir: body]: the directory
    starts empty and is removed however the body ends. *)
Definition with_tmpdir {A} (w : World) (body : string -> M A) : M A :=
  fun s =>
    let tmpdir := mkdtemp w in
    let '(o, s') := body tmpdir {| listing := []; log := log s |} in
    (o, {| listing := []; log := (log s' ++ [Rmtree tmpdir])%list |}).

End Run.

Declare Scope run_scope.
Notation "x <- c ;; k" := (Run.bind c (fun x => k))
  (at level 61, c at next level, right associativity) : run_scope.
Notation "c ;;; k" := (Run.bind c (fun _ => k))
  (at level 61, right associativity) : run_scope.

(** ** thumbnails.py *)

Module Thumbnails.

Import Run.
Local Open Scope Z_scope.
Local Open Scope run_scope.

Definition thumb_w : Z := 400.
Definition padding : Z := 10.
Definition label_h : Z := 20.

Definition pdf_pattern : Pathlib.Pattern :=
  {| Pathlib.pat_prefix := ""; Pathlib.pat_suffix := ".pdf" |}.
Definition jpg_pattern : Pathlib.Pattern :=
  {| Pathlib.pat_prefix := "slide-"; Pathlib.pat_suffix := ".jpg" |}.
Definition png_pattern : Pathlib.Pattern :=
  {| Pathlib.pat_prefix := "slide-"; Pathlib.pat_suffix := ".png" |}.

Definition soffice_argv (tmpdir filepath : string) : list string :=
  ["soffice"; "--headless"; "--convert-to"; "pdf"; "--outdir"; tmpdir; filepath].

Definition pdftoppm_argv (encoding : string) (dpi : Z) (pdf_path img_prefix : string)
  : list string :=
  ["pdftoppm"; encoding; "-r"; Py.str dpi; pdf_path; img_prefix].

(** Lines 18-29: convert the deck to a PDF and locate it. *)
Definition render_pages (w : World) (tmpdir filepath : string) : M string :=
  result <- subprocess_run w (soffice_argv tmpdir filepath) ;;
  pdf_name <- lift match Pathlib.with_suffix (Pathlib.name filepath) ".pdf" with
                   | Some n => Ok n
                   | None => Err ValueError
                   end ;;
  ls <- listdir ;;
  if existsb (String.eqb pdf_name) ls then ret (Pathlib.join tmpdir pdf_name)
  else
    match Pathlib.glob tmpdir pdf_pattern ls with
    | [] => return_ [("error", Json.JStr ("PDF conversion failed: " ++ stderr result))]
    | pdf :: _ => ret pdf
    end.

(** Lines 32-48: rasterise the pages, as JPEG and, failing that, as PNG. *)
Definition extract_raster (w : World) (tmpdir pdf_path : string) (dpi : Z)
  : M (list string) :=
  let img_prefix := Pathlib.join tmpdir "slide" in
  _ <- subprocess_run w (pdftoppm_argv "-jpeg" dpi pdf_path img_prefix) ;;
  ls <- listdir ;;
  let slide_images := Py.sorted (Pathlib.glob tmpdir jpg_pattern ls) in
  slide_images <-
    match slide_images with
    | [] =>
        _ <- subprocess_run w (pdftoppm_argv "-png" dpi pdf_path img_prefix) ;;
        ls <- listdir ;;
        ret (Py.sorted (Pathlib.glob tmpdir png_pattern ls))
    | _ => ret slide_images
    end ;;
  match slide_images with
  | [] => return_ [("error", Json.JStr
            "Failed to convert PDF pages to images. Ensure pdftoppm (poppler) is installed.")]
  | _ => ret slide_images
  end.

(** Line 51: [[Image.open(str(p)) for p in slide_images]]; the first file
    Pillow cannot decode raises. *)
Fixpoint open_all (w : World) (paths : list string) : Try (list PIL.Image) :=
  match paths with
  | [] => Ok []
  | p :: rest =>
      match image_open w p with
      | None => Err UnidentifiedImageError
      | Some img =>
          match open_all w rest with
          | Ok imgs => Ok (img :: imgs)
          | Err e => Err e
          end
      end
  end.

(** Line 53: the height every thumbnail gets, from the first image. *)
Definition thumb_height (first : PIL.Image) : Try Z :=
  if PIL.width first =? 0 then Err ZeroDivisionError
  else Ok (Py.int_div (thumb_w * PIL.height first) (PIL.width first)).

(** Line 55. *)
Definition grid_rows (n cols : Z) : Try Z :=
  if cols =? 0 then Err ZeroDivisionError else Ok (Py.ceil_div n cols).

(** Lines 52-60: the numbers the canvas is laid out with. *)
Record Geometry := {
  g_thumb_h : Z;
  g_rows : Z;
  g_grid_w : Z;
  g_grid_h : Z
}.

Definition geometry (images : list PIL.Image) (cols : Z) : Try Geometry :=
  match images with
  | [] => Err IndexError
  | first :: _ =>
      match thumb_height first with
      | Err e => Err e
      | Ok thumb_h =>
          match grid_rows (Z.of_nat (List.length images)) cols with
          | Err e => Err e
          | Ok rows =>
              Ok {| g_thumb_h := thumb_h;
                    g_rows := rows;
                    g_grid_w := cols * (thumb_w + padding) + padding;
                    g_grid_h := rows * (thumb_h + padding + label_h) + padding |}
          end
      end
  end.

(** Lines 67-75: the loop over [enumerate(images)], started at index [i].
    It runs only once [grid_rows] has ruled out [cols = 0], so [//] and
    [%] do not raise; the first [resize] that raises ends it. *)
Fixpoint paint (cols thumb_h : Z) (i : Z) (images : list PIL.Image)
  (grid : PIL.Canvas) : Try PIL.Canvas :=
  match images with
  | [] => Ok grid
  | img :: rest =>
      let r := i / cols in
      let c := i mod cols in
      let x := padding + c * (thumb_w + padding) in
      let y := padding + r * (thumb_h + padding + label_h) in
      match PIL.Image_resize img thumb_w thumb_h "LANCZOS" with
      | Err e => Err e
      | Ok thumb =>
          let grid := PIL.draw grid (PIL.Paste thumb x (y + label_h)) in
          let grid := PIL.draw grid (PIL.Text (x + 4) (y + 2) ("Slide " ++ Py.str i) "black") in
          paint cols thumb_h (i + 1) rest grid
      end
  end.

(** Lines 52-75: the grid geometry and the painted canvas, with the row
    count the result reports.  [alloc] is the storage there is for the
    canvas. *)
Definition build_grid (alloc : Z -> Z -> bool) (images : list PIL.Image) (cols : Z)
  : Try (Z * PIL.Canvas) :=
  match geometry images cols with
  | Err e => Err e
  | Ok g =>
      match PIL.new alloc (g_grid_w g) (g_grid_h g) "white" with
      | Err e => Err e
      | Ok grid =>
          match paint cols (g_thumb_h g) 0 images grid with
          | Err e => Err e
          | Ok grid => Ok (g_rows g, grid)
          end
      end
  end.

(** Lines 52-83: compose, save and report. *)
Definition compose (w : World) (images : list PIL.Image) (cols : Z)
  (output_prefix : string) : M Json.Dict :=
  rg <- lift (build_grid (can_allocate w) images cols) ;;
  let rows := fst rg in
  let grid := snd rg in
  let output_path := output_prefix ++ ".jpg" in
  grid_save w output_path "JPEG" 90 grid ;;;
  ret [("output", Json.JStr output_path);
       ("slides", Json.JInt (Z.of_nat (List.length images)));
       ("grid", Json.JStr (Py.str rows ++ "x" ++ Py.str cols))].

Definition generate_thumbnails (w : World) (filepath output_prefix : string)
  (cols dpi : Z) : Proc -> Result * Proc :=
  call (
    let filepath := Pathlib.absolute (cwd w) filepath in
    with_tmpdir w (fun tmpdir =>
      pdf_path <- render_pages w tmpdir filepath ;;
      slide_images <- extract_raster w tmpdir pdf_path dpi ;;
      images <- lift (open_all w slide_images) ;;
      compose w images cols output_prefix)).

(** The parsed command line. *)
Record Args := {
  file : string;
  output : string;
  cols : Z;
  dpi : Z
}.

Definition start : Proc := {| listing := []; log := [] |}.

(** Lines 94-100: [main] once [parser.parse_args()] has returned, from
    the parsed arguments to the exit status of the program and the log of
    the run.  An exception nobody catches ends the program with a
    traceback and status 1. *)
Definition main (w : World) (args : Args) : Z * list Event :=
  if negb (path_exists w (file args)) then
    (1, [Stdout ("Error: File not found: " ++ file args)])
  else
    match generate_thumbnails w (file args) (output args) (cols args) (dpi args) start with
    | (Returned result, s) => (0, (log s ++ [Stdout (Json.dumps result)])%list)
    | (Raised e, s) => (1, (log s ++ [Traceback e])%list)
    end.

End Thumbnails.

(** ** Observations on canvases and logs *)

Module Observe.

Import Run Thumbnails.
Local Open Scope Z_scope.

(** The drawing operations the loop of [paint] issues for [images],
    numbered from [i]. *)
Fixpoint cells (cols thumb_h : Z) (i : Z) (images : list PIL.Image)
  : list PIL.DrawOp :=
  match images with
  | [] => []
  | img :: rest =>
      let x := padding + (i mod cols) * (thumb_w + padding) in
      let y := padding + (i / cols) * (thumb_h + padding + label_h) in
      PIL.Paste (PIL.resize img thumb_w thumb_h "LANCZOS") x (y + label_h)
      :: PIL.Text (x + 4) (y + 2) ("Slide " ++ Py.str i) "black"
      :: cells cols thumb_h (i + 1) rest
  end.

(** The pictures pasted on a canvas, in paste order. *)
Fixpoint pasted (l : list PIL.DrawOp) : list PIL.Image :=
  match l with
  | [] => []
  | PIL.Paste im _ _ :: t => im :: pasted t
  | PIL.Text _ _ _ _ :: t => pasted t
  end.

(** The labels written on a canvas, in writing order. *)
Fixpoint labels (l : list PIL.DrawOp) : list string :=
  match l with
  | [] => []
  | PIL.Paste _ _ _ :: t => labels t
  | PIL.Text _ _ text _ :: t => text :: labels t
  end.

(** The files written by [grid.save], with what was written. *)
Fixpoint saved (t : list Event) : list (string * PIL.Canvas) :=
  match t with
  | [] => []
  | Save path _ _ c :: t' => (path, c) :: saved t'
  | _ :: t' => saved t'
  end.

(** The command lines of the external processes started. *)
Fixpoint spawned (t : list Event) : list (list string) :=
  match t with
  | [] => []
  | Spawn argv _ :: t' => argv :: spawned t'
  | _ :: t' => spawned t'
  end.

(** What was printed on standard output. *)
Fixpoint printed (t : list Event) : list string :=
  match t with
  | [] => []
  | Stdout text :: t' => text :: printed t'
  | _ :: t' => printed t'
  end.

(** A raster extraction with the given encoding flag. *)
Definition is_attempt (encoding : string) (e : Event) : bool :=
  match e with
  | Spawn ("pdftoppm" :: enc :: _) _ => String.eqb enc encoding
  | _ => false
  end.

Fixpoint attempts (encoding : string) (t : list Event) : nat :=
  match t with
  | [] => 0%nat
  | e :: t' => ((if is_attempt encoding e then 1 else 0) + attempts encoding t')%nat
  end.

(** The names matching [pat] that the first completed extraction with the
    given encoding left in the scratch directory. *)
Fixpoint yield (encoding : string) (pat : Pathlib.Pattern) (t : list Event)
  : option (list string) :=
  match t with
  | [] => None
  | e :: t' =>
      match e with
      | Spawn _ (Completed _ _ _ ls) =>
          if is_attempt encoding e
          then Some (filter (Pathlib.fnmatch pat) ls)
          else yield encoding pat t'
      | _ => yield encoding pat t'
      end
  end.

Definition keys (d : Json.Dict) : list string := map fst d.

(** The saves that raised, with what they raised. *)
Fixpoint save_failures (t : list Event) : list (string * Exn) :=
  match t with
  | [] => []
  | SaveFailed path _ _ _ e :: t' => (path, e) :: save_failures t'
  | _ :: t' => save_failures t'
  end.


(** What loading, composing and saving make of the raster files found:
    the result of the call, the saves that wrote a file and the saves that
    raised. *)
Definition downstream (w : World) (names : list string) (cols : Z)
  (output_prefix : string) : Result * list Event * list (string * Exn) :=
  match open_all w (Py.sorted (map (Pathlib.join (mkdtemp w)) names)) with
  | Ok images =>
      match build_grid (can_allocate w) images cols with
      | Ok (rows, grid) =>
          match save w (output_prefix ++ ".jpg") grid with
          | None =>
              (Returned [("output", Json.JStr (output_prefix ++ ".jpg"));
                         ("slides", Json.JInt (Z.of_nat (List.length images)));
                         ("grid", Json.JStr (Py.str rows ++ "x" ++ Py.str cols))],
               [Save (output_prefix ++ ".jpg") "JPEG" 90 grid], [])
          | Some e => (Raised e, [], [(output_prefix ++ ".jpg", e)])
          end
      | Err e => (Raised e, [], [])
      end
  | Err e => (Raised e, [], [])
  end.

(** The numbers a grid of [n] images in [cols] columns has when the first
    image is [first], in plain integer arithmetic. *)
Definition plain_thumb_h (first : PIL.Image) : Z :=
  thumb_w * PIL.height first / PIL.width first.

Definition plain_rows (n cols : Z) : Z := (n + cols - 1) / cols.

(** What it takes for the grid of [first :: rest] to be painted: at least
    one column, an opened first image at most 400 times as wide as high
    (so that the thumbnails are at least one pixel high), pixels that can
    be read, and a canvas that fits a C [int] and the storage there is.
    All operands of the two divisions of lines 53 and 55 are then
    [Py.exact]. *)
Definition paintable (alloc : Z -> Z -> bool) (first : PIL.Image)
  (rest : list PIL.Image) (cols : Z) : Prop :=
  let n := Z.of_nat (List.length (first :: rest)) in
  let w := cols * (thumb_w + padding) + padding in
  let h := plain_rows n cols * (plain_thumb_h first + padding + label_h) + padding in
  1 <= cols /\
  PIL.valid first /\
  1 <= plain_thumb_h first /\
  Forall (fun img => PIL.defect img = None) (first :: rest) /\
  w <= PIL.int_max /\
  h <= PIL.int_max /\
  alloc w h = true.

End Observe.

(** ** The specification's rounding *)

Module Spec.

Local Open Scope Z_scope.

(** [round(a / b)] for [b > 0]: the nearest integer, a tie going to the
    even neighbour. *)
Definition round_div (a b : Z) : Z :=
  let q := a / b in
  let r := a mod b in
  if 2 * r <? b then q
  else if b <? 2 * r then q + 1
  else if Z.even q then q else q + 1.

(** The thumbnail height as the specification words it:
    [round(thumb_w * first_image.height / first_image.width)]. *)
Definition thumb_h (first : PIL.Image) : Z :=
  round_div (Thumbnails.thumb_w * PIL.height first) (PIL.width first).

End Spec.

(** ** Sample inputs *)

Module Samples.

Import Run Thumbnails.
Local Open Scope Z_scope.

Definition picture (w h : Z) (file : string) : PIL.Image :=
  {| PIL.width := w; PIL.height := h; PIL.pixels := PIL.Decoded file;
     PIL.defect := None |}.

(** A 3:2 page and a 4:3 page. *)
Definition page_3x2 : PIL.Image := picture 1500 1000 "slide-1.jpg".
Definition page_4x3 : PIL.Image := picture 1600 1200 "slide-2.jpg".

Definition ten_pages : list PIL.Image :=
  page_4x3 :: repeat page_3x2 9.

Definition open_picture (path : string) : option PIL.Image :=
  if Py.ends_with "slide-1.jpg" path || Py.ends_with "slide-1.png" path
  then Some (picture 1500 1000 "page 1")
  else if Py.ends_with "slide-2.jpg" path || Py.ends_with "slide-2.png" path
  then Some (picture 1600 1200 "page 2")
  else None.

(** There is storage for every canvas. *)
Definition roomy (w h : Z) : bool := true.

(** A disk that takes a JPEG file in the working directory, which has no
    subdirectory, and an encoder that refuses a side above 65500 pixels. *)
Definition disk (path : string) (c : PIL.Canvas) : option Exn :=
  if ((65500 <? PIL.canvas_w c) || (65500 <? PIL.canvas_h c))%Z then Some OSError
  else
    match Py.rpartition "/" path with
    | Some _ => Some FileNotFoundError
    | None => None
    end.

(** A machine on which [deck.pptx] exists and the three converter runs
    behave as given. *)
Definition machine (soffice jpeg png : list string -> ProcResult) : World :=
  {| cwd := "/home/user";
     path_exists := fun p => String.eqb p "deck.pptx";
     mkdtemp := "/tmp/tmpq1w2e3";
     run := fun argv ls =>
       match argv with
       | "soffice" :: _ => soffice ls
       | "pdftoppm" :: "-jpeg" :: _ => jpeg ls
       | "pdftoppm" :: "-png" :: _ => png ls
       | _ => NotStarted
       end;
     image_open := open_picture;
     can_allocate := roomy;
     save := disk |}.

Definition leaves (rc : Z) (err : string) (files : list string)
  : list string -> ProcResult :=
  fun ls => Completed rc "" err (ls ++ files)%list.

Definition hangs : list string -> ProcResult := fun _ => TimedOut.

(** The renderer writes the PDF; the JPEG run writes both pages. *)
Definition primary_world : World :=
  machine (leaves 0 "" ["deck.pdf"])
          (leaves 0 "" ["slide-2.jpg"; "slide-1.jpg"])
          (leaves 0 "" []).

(** The JPEG run writes nothing; the PNG run writes both pages. *)
Definition fallback_world : World :=
  machine (leaves 0 "" ["deck.pdf"])
          (leaves 1 "Unknown option" [])
          (leaves 0 "" ["slide-2.png"; "slide-1.png"]).

(** Neither raster run writes a page. *)
Definition no_raster_world : World :=
  machine (leaves 0 "" ["deck.pdf"]) (leaves 1 "" []) (leaves 1 "" []).

(** The renderer writes nothing and complains. *)
Definition no_pdf_world : World :=
  machine (leaves 1 "Error: source file could not be loaded" [])
          (leaves 0 "" []) (leaves 0 "" []).


(** The renderer does not finish within its 60 seconds. *)
Definition timeout_world : World :=
  machine hangs (leaves 0 "" []) (leaves 0 "" []).

Definition deck_args : Args :=
  {| file := "deck.pptx"; output := "thumbnails"; cols := 4; dpi := 150 |}.

Definition missing_args : Args :=
  {| file := "missing.pptx"; output := "thumbnails"; cols := 4; dpi := 150 |}.

(** The output prefix lies in a directory that does not exist. *)
Definition missing_directory_args : Args :=
  {| file := "deck.pptx"; output := "out/thumbnails"; cols := 4; dpi := 150 |}.

End Samples.

(** ** Regions of the canvas *)

Module Layout.

Import Run.
Local Open Scope Z_scope.

(** A rectangle of pixels: left and top inclusive, right and bottom
    exclusive. *)
Record Box := { box_left : Z; box_top : Z; box_right : Z; box_bottom : Z }.

(** The rectangles covered by the pictures pasted on a canvas, in paste
    order. *)
Fixpoint boxes (l : list PIL.DrawOp) : list Box :=
  match l with
  | [] => []
  | PIL.Paste im x y :: t =>
      {| box_left := x; box_top := y;
         box_right := x + PIL.width im; box_bottom := y + PIL.height im |}
      :: boxes t
  | PIL.Text _ _ _ _ :: t => boxes t
  end.

Definition disjoint (a b : Box) : Prop :=
  box_right a <= box_left b \/ box_right b <= box_left a \/
  box_bottom a <= box_top b \/ box_bottom b <= box_top a.

(** The scratch directories removed. *)
Fixpoint removed (t : list Event) : list string :=
  match t with
  | [] => []
  | Rmtree dir :: t' => dir :: removed t'
  | _ :: t' => removed t'
  end.

(** The [grid.save] events of a log that wrote a file. *)
Fixpoint written (t : list Event) : list Event :=
  match t with
  | [] => []
  | Save path format quality c :: t' => Save path format quality c :: written t'
  | _ :: t' => written t'
  end.

(** The label of the cell at index [i]. *)
Definition label (i : nat) : string := "Slide " ++ Py.str (Z.of_nat i).

(** The order [sorted] puts file names in. *)
Definition ascending (l : list string) : Prop :=
  Sorted.StronglySorted (fun a b => String.leb a b = true) l.

End Layout.

(** ** More sample inputs *)

Module MoreSamples.

Import Run Thumbnails.
Local Open Scope Z_scope.

(** The JPEG run writes two pages, the second of which does not decode. *)
Definition broken_page_world : World :=
  Samples.machine (Samples.leaves 0 "" ["deck.pdf"])
                  (Samples.leaves 0 "" ["slide-1.jpg"; "slide-3.jpg"])
                  (Samples.leaves 0 "" []).

End MoreSamples.

(** * Properties *)

Section Checks.

Import Run Thumbnails Observe.
Local Open Scope Z_scope.

Example str_150 : Py.str 150 = "150".
Proof. reflexivity. Qed.

Example str_0 : Py.str 0 = "0".
Proof. reflexivity. Qed.

Example str_negative : Py.str (-7) = "-7".
Proof. reflexivity. Qed.

Example ceil_10_4 : Py.ceil_div 10 4 = 3.
Proof. reflexivity. Qed.

Example ceil_8_4 : Py.ceil_div 8 4 = 2.
Proof. reflexivity. Qed.

Example ceil_1_5 : Py.ceil_div 1 5 = 1.
Proof. reflexivity. Qed.

Example ceil_negative_columns : Py.ceil_div 10 (-4) = -2.
Proof. reflexivity. Qed.

Example int_div_truncates : Py.int_div (400 * 1000) 1500 = 266.
Proof. reflexivity. Qed.

Example split_slashes : Py.split "/" "a//b/" = ["a"; ""; "b"; ""].
Proof. reflexivity. Qed.

Example name_of_path : Pathlib.name "/home/user/deck.pptx" = "deck.pptx".
Proof. reflexivity. Qed.

Example name_of_directory : Pathlib.name "decks/" = "decks".
Proof. reflexivity. Qed.

Example name_of_root : Pathlib.name "/" = "".
Proof. reflexivity. Qed.

Example absolute_relative :
  Pathlib.absolute "/home/user" "deck.pptx" = "/home/user/deck.pptx".
Proof. reflexivity. Qed.

Example absolute_dot_slash :
  Pathlib.absolute "/home/user" "./decks//deck.pptx" = "/home/user/decks/deck.pptx".
Proof. reflexivity. Qed.

Example absolute_keeps_dot_dot :
  Pathlib.absolute "/home/user" "../deck.pptx" = "/home/user/../deck.pptx".
Proof. reflexivity. Qed.

Example absolute_rooted :
  Pathlib.absolute "/home/user" "/srv/./deck.pptx" = "/srv/deck.pptx".
Proof. reflexivity. Qed.

Example absolute_two_slashes :
  Pathlib.absolute "/home/user" "//srv/deck.pptx" = "//srv/deck.pptx".
Proof. reflexivity. Qed.

Example absolute_three_slashes :
  Pathlib.absolute "/home/user" "///srv/deck.pptx" = "/srv/deck.pptx".
Proof. reflexivity. Qed.

Example absolute_empty : Pathlib.absolute "/home/user" "" = "/home/user".
Proof. reflexivity. Qed.

Example absolute_dot : Pathlib.absolute "/home/user" "." = "/home/user".
Proof. reflexivity. Qed.

Example absolute_in_root : Pathlib.absolute "/" "deck.pptx" = "/deck.pptx".
Proof. reflexivity. Qed.

Example normal_dot : Pathlib.normal "" = "." /\ Pathlib.normal "./" = ".".
Proof. split; reflexivity. Qed.

Example with_suffix_last_dot :
  Pathlib.with_suffix "deck.v2.pptx" ".pdf" = Some "deck.v2.pdf".
Proof. reflexivity. Qed.

Example with_suffix_leading_dot :
  Pathlib.with_suffix ".pptx" ".pdf" = Some ".pptx.pdf".
Proof. reflexivity. Qed.

Example with_suffix_trailing_dot :
  Pathlib.with_suffix "deck.v2." ".pdf" = Some "deck.v2..pdf".
Proof. reflexivity. Qed.

Example with_suffix_no_name : Pathlib.with_suffix "" ".pdf" = None.
Proof. reflexivity. Qed.

Example sorted_pages :
  Py.sorted ["t/slide-2.jpg"; "t/slide-10.jpg"; "t/slide-1.jpg"]
  = ["t/slide-1.jpg"; "t/slide-10.jpg"; "t/slide-2.jpg"].
Proof. reflexivity. Qed.

Example glob_pages :
  Pathlib.glob "/t" jpg_pattern ["deck.pdf"; "slide-2.jpg"; "slide-1.png"; "slide.jpg"]
  = ["/t/slide-2.jpg"].
Proof. reflexivity. Qed.

Example resize_flat :
  PIL.Image_resize Samples.page_3x2 400 0 "LANCZOS" = Err ValueError.
Proof. reflexivity. Qed.

Example new_too_wide :
  PIL.new Samples.roomy 2147483648 100 "white" = Err OverflowError.
Proof. reflexivity. Qed.

Example new_negative :
  PIL.new Samples.roomy (-400) 100 "white" = Err ValueError.
Proof. reflexivity. Qed.

Example ten_pages_canvas :
  match build_grid Samples.roomy Samples.ten_pages 4 with
  | Ok (rows, grid) => (rows, PIL.canvas_w grid, PIL.canvas_h grid)
  | Err _ => (0, 0, 0)
  end = (3, 1650, 1000).
Proof. reflexivity. Qed.

Example ten_pages_labels :
  match build_grid Samples.roomy Samples.ten_pages 4 with
  | Ok (_, grid) => labels (PIL.ops grid)
  | Err _ => []
  end
  = ["Slide 0"; "Slide 1"; "Slide 2"; "Slide 3"; "Slide 4";
     "Slide 5"; "Slide 6"; "Slide 7"; "Slide 8"; "Slide 9"].
Proof. reflexivity. Qed.

Example no_columns :
  build_grid Samples.roomy Samples.ten_pages 0 = Err ZeroDivisionError.
Proof. reflexivity. Qed.

Example negative_columns :
  build_grid Samples.roomy Samples.ten_pages (-2) = Err ValueError.
Proof. reflexivity. Qed.

Example too_many_columns :
  build_grid Samples.roomy Samples.ten_pages (2 ^ 31) = Err OverflowError.
Proof. reflexivity. Qed.

Example primary_run :
  fst (main Samples.primary_world Samples.deck_args) = 0 /\
  spawned (snd (main Samples.primary_world Samples.deck_args))
  = [soffice_argv "/tmp/tmpq1w2e3" "/home/user/deck.pptx";
     pdftoppm_argv "-jpeg" 150 "/tmp/tmpq1w2e3/deck.pdf" "/tmp/tmpq1w2e3/slide"] /\
  printed (snd (main Samples.primary_world Samples.deck_args))
  = [Json.dumps [("output", Json.JStr "thumbnails.jpg");
                 ("slides", Json.JInt 2);
                 ("grid", Json.JStr "1x4")]].
Proof. repeat split; reflexivity. Qed.

Example dumps_layout :
  Json.dumps [("slides", Json.JInt 2); ("grid", Json.JStr "1x4")]
  = "{" ++ Json.newline
    ++ "  " ++ Json.quote ++ "slides" ++ Json.quote ++ ": 2," ++ Json.newline
    ++ "  " ++ Json.quote ++ "grid" ++ Json.quote ++ ": "
    ++ Json.quote ++ "1x4" ++ Json.quote ++ Json.newline
    ++ "}".
Proof. reflexivity. Qed.

End Checks.

Section Geometry.

Import Run Thumbnails Observe.
Local Open Scope Z_scope.

(** A [resize] that returns was given a readable image and a size of at
    least 1 x 1, and returns the resampled image. *)
Lemma Image_resize_inv img w h filter t :
  PIL.Image_resize img w h filter = Ok t ->
  t = PIL.resize img w h filter /\ PIL.defect img = None /\
  1 <= w <= PIL.int_max /\ 1 <= h <= PIL.int_max.
Proof.
  unfold PIL.Image_resize. destruct (PIL.defect img); [discriminate|].
  destruct (Z.ltb_spec PIL.int_max w); [discriminate|].
  destruct (Z.ltb_spec PIL.int_max h); [discriminate|].
  destruct (Z.ltb_spec w (- PIL.int_max - 1)); [discriminate|].
  destruct (Z.ltb_spec h (- PIL.int_max - 1)); [discriminate|].
  destruct (Z.ltb_spec w 1); [discriminate|].
  destruct (Z.ltb_spec h 1); [discriminate|].
  cbn [orb]. intros [= <-]. repeat split; lia || reflexivity.
Qed.

Lemma Image_resize_ok img w h filter :
  PIL.defect img = None ->
  1 <= w <= PIL.int_max -> 1 <= h <= PIL.int_max ->
  PIL.Image_resize img w h filter = Ok (PIL.resize img w h filter).
Proof.
  intros Hd Hw Hh. unfold PIL.Image_resize. rewrite Hd.
  destruct (Z.ltb_spec PIL.int_max w); [lia|].
  destruct (Z.ltb_spec PIL.int_max h); [lia|].
  destruct (Z.ltb_spec w (- PIL.int_max - 1)); [unfold PIL.int_max in *; lia|].
  destruct (Z.ltb_spec h (- PIL.int_max - 1)); [unfold PIL.int_max in *; lia|].
  destruct (Z.ltb_spec w 1); [lia|].
  destruct (Z.ltb_spec h 1); [lia|].
  reflexivity.
Qed.

(** A loop that comes to its end has issued the operations of [cells]. *)
Lemma paint_inv cols th images :
  forall i grid grid',
    paint cols th i images grid = Ok grid' ->
    grid' = {| PIL.canvas_w := PIL.canvas_w grid;
               PIL.canvas_h := PIL.canvas_h grid;
               PIL.background := PIL.background grid;
               PIL.ops := (PIL.ops grid ++ cells cols th i images)%list |}
    /\ (images <> [] -> 1 <= th <= PIL.int_max)
    /\ Forall (fun img => PIL.defect img = None) images.
Proof.
  induction images as [|img rest IH]; intros i grid grid'; simpl.
  - intros [= <-]. rewrite app_nil_r. split; [now destruct grid|].
    split; [congruence | constructor].
  - destruct (PIL.Image_resize img thumb_w th "LANCZOS") as [thumb|e] eqn:Hr;
      [|discriminate].
    apply Image_resize_inv in Hr. destruct Hr as (-> & Hd & _ & Hth).
    intros H. apply IH in H. destruct H as (-> & _ & Hall).
    simpl. rewrite <- !app_assoc. split; [reflexivity|].
    split; [intros _; exact Hth | now constructor].
Qed.

(** With a thumbnail height of at least 1 and readable images, the loop
    comes to its end. *)
Lemma paint_ok cols th images :
  1 <= th <= PIL.int_max ->
  Forall (fun img => PIL.defect img = None) images ->
  forall i grid,
    paint cols th i images grid
    = Ok {| PIL.canvas_w := PIL.canvas_w grid;
            PIL.canvas_h := PIL.canvas_h grid;
            PIL.background := PIL.background grid;
            PIL.ops := (PIL.ops grid ++ cells cols th i images)%list |}.
Proof.
  intros Hth. induction 1 as [|img rest Hd _ IH]; intros i grid; simpl.
  - rewrite app_nil_r. now destruct grid.
  - rewrite (Image_resize_ok img thumb_w th "LANCZOS" Hd)
      by (unfold thumb_w, PIL.int_max in *; lia).
    rewrite IH. simpl. rewrite <- !app_assoc. reflexivity.
Qed.

(** The first unreadable image ends the loop with what reading it raises. *)
Lemma paint_defect cols th images :
  1 <= th <= PIL.int_max ->
  forall i grid good bad later e,
    images = (good ++ bad :: later)%list ->
    Forall (fun img => PIL.defect img = None) good ->
    PIL.defect bad = Some e ->
    paint cols th i images grid = Err e.
Proof.
  intros Hth i grid good. revert images i grid.
  induction good as [|g good IH]; intros images i grid bad later e -> Hgood Hbad; simpl.
  - unfold PIL.Image_resize. now rewrite Hbad.
  - inversion Hgood as [|? ? Hg Hrest]; subst.
    rewrite (Image_resize_ok g thumb_w th "LANCZOS" Hg)
      by (unfold thumb_w, PIL.int_max in *; lia).
    now apply IH with bad later.
Qed.


Lemma pasted_cells cols th images :
  forall k, pasted (cells cols th k images)
            = map (fun img => PIL.resize img thumb_w th "LANCZOS") images.
Proof.
  induction images as [|im rest IH]; intros k; simpl; [reflexivity|].
  now rewrite IH.
Qed.

(** [ceil_div n c] is the ceiling of [n / c]: the one integer [r] with
    [(r - 1) * c < n <= r * c]. *)
Lemma ceil_div_spec n c :
  1 <= c -> (Py.ceil_div n c - 1) * c < n <= Py.ceil_div n c * c.
Proof.
  intros Hc. unfold Py.ceil_div.
  pose proof (Z.mul_div_le (- n) c ltac:(lia)).
  pose proof (Z.mul_succ_div_gt (- n) c ltac:(lia)).
  lia.
Qed.

Lemma ceil_div_unique n c r :
  1 <= c -> (r - 1) * c < n <= r * c -> Py.ceil_div n c = r.
Proof.
  intros Hc Hr. pose proof (ceil_div_spec n c Hc). nia.
Qed.

Lemma ceil_div_plain n c : 1 <= c -> Py.ceil_div n c = plain_rows n c.
Proof.
  intros Hc. apply ceil_div_unique; [exact Hc|]. unfold plain_rows.
  pose proof (Z.mul_div_le (n + c - 1) c ltac:(lia)).
  pose proof (Z.mul_succ_div_gt (n + c - 1) c ltac:(lia)).
  lia.
Qed.

(** [int_div] on a non-negative numerator and a positive denominator is
    the floor of the quotient. *)
Lemma int_div_spec a b :
  0 <= a -> 0 < b ->
  0 <= Py.int_div a b /\ Py.int_div a b * b <= a < (Py.int_div a b + 1) * b.
Proof.
  intros Ha Hb. unfold Py.int_div.
  rewrite Z.quot_div_nonneg by lia.
  pose proof (Z.mul_div_le a b ltac:(lia)).
  pose proof (Z.mul_succ_div_gt a b ltac:(lia)).
  pose proof (Z.div_pos a b ltac:(lia) ltac:(lia)).
  lia.
Qed.

Lemma thumb_height_valid first :
  PIL.valid first ->
  thumb_height first = Ok (plain_thumb_h first) /\ 0 <= plain_thumb_h first /\
  Py.int_div (thumb_w * PIL.height first) (PIL.width first) = plain_thumb_h first.
Proof.
  intros [Hw Hh]. unfold thumb_height, plain_thumb_h.
  destruct (Z.eqb_spec (PIL.width first) 0); [lia|].
  unfold Py.int_div. rewrite Z.quot_div_nonneg by (unfold thumb_w; lia).
  split; [reflexivity|]. split; [|reflexivity].
  apply Z.div_pos; unfold thumb_w; lia.
Qed.

(** The geometry of a non-empty sequence of opened images in at least one
    column. *)
Lemma geometry_ok first rest cols :
  1 <= cols -> PIL.valid first ->
  let n := Z.of_nat (List.length (first :: rest)) in
  geometry (first :: rest) cols
  = Ok {| g_thumb_h := plain_thumb_h first;
          g_rows := plain_rows n cols;
          g_grid_w := cols * (thumb_w + padding) + padding;
          g_grid_h := plain_rows n cols * (plain_thumb_h first + padding + label_h)
                      + padding |}
  /\ 0 <= plain_thumb_h first /\ 1 <= plain_rows n cols.
Proof.
  intros Hc Hv n.
  destruct (thumb_height_valid first Hv) as (Ht & Hth & _).
  assert (Hrows : 1 <= plain_rows n cols).
  { rewrite <- ceil_div_plain by exact Hc.
    pose proof (ceil_div_spec n cols Hc) as Hs.
    unfold n in *. simpl List.length in *. nia. }
  split; [|split; assumption].
  unfold geometry. rewrite Ht. unfold grid_rows.
  destruct (Z.eqb_spec cols 0); [lia|].
  fold n. rewrite ceil_div_plain by exact Hc. reflexivity.
Qed.

(** On a paintable sequence [build_grid] raises nothing and its result is
    the closed form below. *)
Lemma build_grid_ok alloc first rest cols :
  paintable alloc first rest cols ->
  let images := first :: rest in
  let th := plain_thumb_h first in
  let rows := plain_rows (Z.of_nat (List.length images)) cols in
  thumb_height first = Ok th /\
  1 <= th /\ 1 <= rows /\
  rows = Py.ceil_div (Z.of_nat (List.length images)) cols /\
  build_grid alloc images cols
  = Ok (rows,
        {| PIL.canvas_w := cols * (thumb_w + padding) + padding;
           PIL.canvas_h := rows * (th + padding + label_h) + padding;
           PIL.background := "white";
           PIL.ops := cells cols th 0 images |}).
Proof.
  intros (Hc & Hv & Hth & Hall & Hw & Hh & Ha) images th rows.
  cbn zeta in Hw, Hh, Ha. fold images in Hh, Ha. fold th in Hh, Ha, Hth.
  fold rows in Hh, Ha.
  destruct (geometry_ok first rest cols Hc Hv) as (Hg & _ & Hrows).
  cbn zeta in Hg, Hrows. fold images in Hg, Hrows. fold th in Hg.
  fold rows in Hg, Hrows.
  destruct (thumb_height_valid first Hv) as (Ht & _ & _).
  split; [exact Ht|]. split; [exact Hth|]. split; [exact Hrows|].
  split; [unfold rows; now rewrite ceil_div_plain|].
  unfold build_grid. rewrite Hg. cbn [g_grid_w g_grid_h g_thumb_h g_rows].
  unfold PIL.new.
  destruct (Z.ltb_spec (cols * (thumb_w + padding) + padding) 0);
    [unfold thumb_w, padding in *; lia|].
  destruct (Z.ltb_spec (rows * (th + padding + label_h) + padding) 0);
    [unfold padding, label_h in *; nia|].
  destruct (Z.ltb_spec PIL.int_max (cols * (thumb_w + padding) + padding)); [lia|].
  destruct (Z.ltb_spec PIL.int_max (rows * (th + padding + label_h) + padding)); [lia|].
  cbn [orb]. rewrite Ha.
  rewrite paint_ok; [reflexivity | | exact Hall].
  unfold padding, label_h in *. nia.
Qed.

(** What a successful [build_grid] tells about its arguments and result. *)
Lemma build_grid_inv alloc images cols rows grid :
  build_grid alloc images cols = Ok (rows, grid) ->
  exists first rest th,
    images = first :: rest /\
    thumb_height first = Ok th /\
    1 <= cols /\
    rows = Py.ceil_div (Z.of_nat (List.length images)) cols /\
    grid = {| PIL.canvas_w := cols * (thumb_w + padding) + padding;
              PIL.canvas_h := rows * (th + padding + label_h) + padding;
              PIL.background := "white";
              PIL.ops := cells cols th 0 images |} /\
    1 <= th <= PIL.int_max /\
    0 <= PIL.canvas_w grid <= PIL.int_max /\
    0 <= PIL.canvas_h grid <= PIL.int_max /\
    alloc (PIL.canvas_w grid) (PIL.canvas_h grid) = true /\
    Forall (fun img => PIL.defect img = None) images.
Proof.
  unfold build_grid, geometry. destruct images as [|first rest]; [discriminate|].
  destruct (thumb_height first) as [th|e] eqn:Ht; [|discriminate].
  unfold grid_rows. destruct (Z.eqb_spec cols 0) as [|Hc0]; [discriminate|].
  cbn [g_grid_w g_grid_h g_thumb_h g_rows].
  set (rows' := Py.ceil_div (Z.of_nat (List.length (first :: rest))) cols).
  unfold PIL.new.
  destruct (Z.ltb_spec (cols * (thumb_w + padding) + padding) 0); [discriminate|].
  destruct (Z.ltb_spec (rows' * (th + padding + label_h) + padding) 0); [discriminate|].
  destruct (Z.ltb_spec PIL.int_max (cols * (thumb_w + padding) + padding)); [discriminate|].
  destruct (Z.ltb_spec PIL.int_max (rows' * (th + padding + label_h) + padding));
    [discriminate|].
  cbn [orb].
  destruct (alloc _ _) eqn:Ha; [|discriminate].
  destruct (paint cols th 0 (first :: rest) _) as [g|e] eqn:Hp; [|discriminate].
  intros [= <- <-]. apply paint_inv in Hp. cbn [PIL.canvas_w PIL.canvas_h
    PIL.background PIL.ops app] in Hp. destruct Hp as (-> & Hth & Hall).
  exists first, rest, th.
  split; [reflexivity|]. split; [exact Ht|]. split.
  { unfold thumb_w, padding in *. lia. }
  split; [reflexivity|]. split; [reflexivity|].
  cbn [PIL.canvas_w PIL.canvas_h].
  split; [apply Hth; discriminate|].
  split; [lia|]. split; [lia|]. split; [exact Ha | exact Hall].
Qed.

(** On a paintable sequence the divisions of lines 53 and 55 have
    operands binary64 holds exactly. *)
Lemma paintable_exact alloc first rest cols :
  paintable alloc first rest cols ->
  Py.exact cols /\ Py.exact (Z.of_nat (List.length (first :: rest))) /\
  Py.exact (thumb_w * PIL.height first) /\ Py.exact (PIL.width first).
Proof.
  intros (Hc & (Hw & Hh) & Hth & _ & Hgw & Hgh & _). cbn zeta in Hgw, Hgh.
  set (n := Z.of_nat (List.length (first :: rest))) in *.
  pose proof (ceil_div_spec n cols Hc) as Hs.
  rewrite (ceil_div_plain n cols Hc) in Hs.
  assert (Hn : 1 <= n) by (unfold n; simpl List.length; lia).
  assert (Hr : 1 <= plain_rows n cols) by nia.
  unfold Py.exact, PIL.int_max, thumb_w, padding, label_h in *.
  assert (Hcb : cols <= 5237764) by lia.
  assert (Hrb : plain_rows n cols <= 69273665) by nia.
  assert (Hnb : n <= 69273665 * 5237764) by nia.
  change (2 ^ 53) with 9007199254740992.
  repeat split; lia.
Qed.

(** On opened images, the grid is built exactly when the sequence is
    paintable. *)
Lemma built_paintable alloc first rest cols rows grid :
  PIL.valid first ->
  build_grid alloc (first :: rest) cols = Ok (rows, grid) ->
  paintable alloc first rest cols.
Proof.
  intros Hv Hb. apply build_grid_inv in Hb.
  destruct Hb as (f & r & th & [= <- <-] & Hth & Hc & -> & -> & Hpos & Hw & Hh & Ha & Hall).
  destruct (thumb_height_valid first Hv) as (Ht & _ & _).
  rewrite Ht in Hth. injection Hth as <-.
  cbn [PIL.canvas_w PIL.canvas_h] in Hw, Hh, Ha.
  rewrite (ceil_div_plain _ cols Hc) in Hh, Ha.
  unfold paintable. cbn zeta.
  split; [exact Hc|]. split; [exact Hv|]. split; [lia|]. split; [exact Hall|].
  split; [lia|]. split; [lia | exact Ha].
Qed.


(** [str] of a natural number is its decimal numeral. *)
Lemma str_of_nat (i : nat) :
  Py.str (Z.of_nat i) = NilZero.string_of_uint (Nat.to_uint i).
Proof.
  assert (Hlu : forall n, DecimalPos.Unsigned.to_lu (N.of_nat n)
                          = DecimalNat.Unsigned.to_lu n).
  { induction n as [|n IH]; [reflexivity|].
    rewrite Nat2N.inj_succ, DecimalPos.Unsigned.to_lu_succ, IH. reflexivity. }
  unfold Py.str. rewrite DecimalNat.Unsigned.to_uint_alt, <- Hlu.
  destruct i as [|i]; reflexivity.
Qed.

End Geometry.

(** The sample grids are paintable. *)
Ltac sample_paintable :=
  unfold Observe.paintable, PIL.valid, Observe.plain_rows, Observe.plain_thumb_h,
    PIL.int_max;
  cbn;
  repeat match goal with
         | |- _ /\ _ => split
         end;
  first [lia | reflexivity | repeat constructor].

Section GridProperties.

Import Run Thumbnails Observe.
Local Open Scope Z_scope.

(** C1.  For a non-empty sequence of N opened images and a column count
    C >= 1, both within the integers binary64 holds exactly, the geometry
    of lines 52-60 is rows = ceil(N / C), stated as the integer with
    (rows - 1) * C < N <= rows * C, a canvas width of C * (400 + 10) + 10
    and a canvas height of rows * (thumb_h + 10 + 20) + 10; for N = 10 and
    C = 4 that is 3 rows and a width of 1650.  Whenever the grid is built,
    the canvas has that size and the row count is that one. *)
Theorem C1_grid_geometry (first : PIL.Image) (rest : list PIL.Image) (cols : Z) :
  let N := Z.of_nat (List.length (first :: rest)) in
  1 <= cols -> Py.exact cols -> Py.exact N -> PIL.valid first ->
  exists g,
    geometry (first :: rest) cols = Ok g /\
    thumb_height first = Ok (g_thumb_h g) /\
    (thumb_w = 400 /\ padding = 10 /\ label_h = 20) /\
    (g_rows g - 1) * cols < N <= g_rows g * cols /\
    g_grid_w g = cols * (400 + 10) + 10 /\
    g_grid_h g = g_rows g * (g_thumb_h g + 10 + 20) + 10 /\
    (N = 10 -> cols = 4 ->
     g_rows g = 3 /\ g_grid_w g = 1650 /\
     g_grid_h g = 3 * (g_thumb_h g + 10 + 20) + 10) /\
    (forall alloc rows grid,
       build_grid alloc (first :: rest) cols = Ok (rows, grid) ->
       rows = g_rows g /\
       PIL.canvas_w grid = g_grid_w g /\
       PIL.canvas_h grid = g_grid_h g).
Proof.
  intros N Hc _ _ Hv.
  destruct (geometry_ok first rest cols Hc Hv) as (Hg & _ & _).
  destruct (thumb_height_valid first Hv) as (Ht & _ & _).
  cbn zeta in Hg. fold N in Hg.
  pose proof (ceil_div_spec N cols Hc) as Hs.
  rewrite (ceil_div_plain N cols Hc) in Hs.
  eexists. split; [exact Hg|].
  cbn [g_thumb_h g_rows g_grid_w g_grid_h].
  split; [exact Ht|].
  split; [repeat split|]. split; [exact Hs|].
  split; [reflexivity|]. split; [reflexivity|].
  split.
  - intros HN H4.
    assert (Hrows : plain_rows N cols = 3).
    { rewrite <- ceil_div_plain by exact Hc. apply ceil_div_unique; lia. }
    rewrite Hrows. subst cols. unfold thumb_w, padding, label_h.
    repeat split; lia.
  - intros alloc rows grid Hb. apply build_grid_inv in Hb.
    destruct Hb as (f & r & th & [= <- <-] & Hth & _ & -> & -> & _).
    rewrite Ht in Hth. injection Hth as <-.
    cbn [PIL.canvas_w PIL.canvas_h]. fold N.
    rewrite (ceil_div_plain N cols Hc). repeat split; reflexivity.
Qed.

Lemma C1_grid_geometry_witness :
  exists g,
    geometry Samples.ten_pages 4 = Ok g /\
    thumb_height Samples.page_4x3 = Ok (g_thumb_h g) /\
    (thumb_w = 400 /\ padding = 10 /\ label_h = 20) /\
    (g_rows g - 1) * 4 < 10 <= g_rows g * 4 /\
    g_grid_w g = 4 * (400 + 10) + 10 /\
    g_grid_h g = g_rows g * (g_thumb_h g + 10 + 20) + 10 /\
    (10 = 10 -> 4 = 4 ->
     g_rows g = 3 /\ g_grid_w g = 1650 /\
     g_grid_h g = 3 * (g_thumb_h g + 10 + 20) + 10) /\
    (forall alloc rows grid,
       build_grid alloc Samples.ten_pages 4 = Ok (rows, grid) ->
       rows = g_rows g /\
       PIL.canvas_w grid = g_grid_w g /\
       PIL.canvas_h grid = g_grid_h g).
Proof.
  apply (C1_grid_geometry Samples.page_4x3 (repeat Samples.page_3x2 9) 4).
  - lia.
  - unfold Py.exact; split; reflexivity.
  - unfold Py.exact; split; reflexivity.
  - unfold PIL.valid, PIL.int_max; simpl; lia.
Defined.

(** C2, as the code has it.  On a paintable sequence (in particular a
    first image at most 400 times as wide as high) the shared thumbnail
    height is 400 * first.height / first.width truncated to an integer,
    the floor, not rounded to the nearest, and it is at least 1; every
    image of the sequence is resized to exactly (400, thumb_h) with that
    one height. *)
Theorem C2_shared_thumbnail_height (alloc : Z -> Z -> bool) (first : PIL.Image)
  (rest : list PIL.Image) (cols : Z) :
  paintable alloc first rest cols ->
  exists rows thumb_h grid,
    build_grid alloc (first :: rest) cols = Ok (rows, grid) /\
    thumb_height first = Ok thumb_h /\
    1 <= thumb_h /\
    thumb_h * PIL.width first <= 400 * PIL.height first
      < (thumb_h + 1) * PIL.width first /\
    pasted (PIL.ops grid)
    = map (fun img => PIL.resize img 400 thumb_h "LANCZOS") (first :: rest) /\
    Forall (fun t => PIL.width t = 400 /\ PIL.height t = thumb_h)
           (pasted (PIL.ops grid)).
Proof.
  intros Hp.
  destruct (build_grid_ok alloc first rest cols Hp) as (Ht & Hth & _ & _ & Hb).
  destruct Hp as (_ & Hv & _).
  destruct (thumb_height_valid first Hv) as (_ & _ & Hq).
  destruct Hv as [Hw Hh].
  eexists _, _, _. split; [exact Hb|]. split; [exact Ht|].
  split; [exact Hth|].
  split.
  { rewrite <- Hq. apply int_div_spec; unfold thumb_w; lia. }
  cbn [PIL.ops]. rewrite pasted_cells. split; [reflexivity|].
  apply Forall_forall. intros t Hin. apply in_map_iff in Hin.
  destruct Hin as (img & <- & _). split; reflexivity.
Qed.

Lemma C2_shared_thumbnail_height_witness :
  exists rows thumb_h grid,
    build_grid Samples.roomy [Samples.page_3x2; Samples.page_4x3] 4 = Ok (rows, grid) /\
    thumb_height Samples.page_3x2 = Ok thumb_h /\
    1 <= thumb_h /\
    thumb_h * 1500 <= 400 * 1000 < (thumb_h + 1) * 1500 /\
    pasted (PIL.ops grid)
    = map (fun img => PIL.resize img 400 thumb_h "LANCZOS")
          [Samples.page_3x2; Samples.page_4x3] /\
    Forall (fun t => PIL.width t = 400 /\ PIL.height t = thumb_h)
           (pasted (PIL.ops grid)).
Proof.
  apply (C2_shared_thumbnail_height Samples.roomy Samples.page_3x2 [Samples.page_4x3] 4).
  sample_paintable.
Defined.

(** C2, as the specification words it, fails: for a first image of
    1500 x 1000 the code computes 266 where rounding gives 267. *)
Lemma C2_rounding_counterexample :
  thumb_height Samples.page_3x2 = Ok 266 /\
  Spec.thumb_h Samples.page_3x2 = 267 /\
  thumb_height Samples.page_3x2 <> Ok (Spec.thumb_h Samples.page_3x2) /\
  match build_grid Samples.roomy [Samples.page_3x2] 4 with
  | Ok (_, grid) => map PIL.height (pasted (PIL.ops grid))
  | Err _ => []
  end = [266].
Proof.
  split; [reflexivity|]. split; [reflexivity|].
  split; [vm_compute; discriminate | reflexivity].
Qed.





End GridProperties.

Section Pipeline.

Import Run Thumbnails Observe.
Local Open Scope Z_scope.

Lemma insert_sorted_not_nil s l : Py.insert_sorted s l <> [].
Proof. destruct l as [|h t]; simpl; [|destruct (String.ltb s h)]; discriminate. Qed.

Lemma sorted_nil l : Py.sorted l = [] -> l = [].
Proof.
  destruct l as [|h t]; [reflexivity|]. simpl. intros H.
  now apply insert_sorted_not_nil in H.
Qed.

Lemma glob_nil d pat ls :
  Pathlib.glob d pat ls = [] -> filter (Pathlib.fnmatch pat) ls = [].
Proof. unfold Pathlib.glob. apply map_eq_nil. Qed.

Lemma ends_with_refl s : Py.ends_with s s = true.
Proof. destruct s; simpl; [reflexivity|]. now rewrite Ascii.eqb_refl, String.eqb_refl. Qed.

Lemma ends_with_append suf pre : Py.ends_with suf (pre ++ suf) = true.
Proof.
  induction pre as [|a pre IH]; simpl.
  - apply ends_with_refl.
  - rewrite IH. apply orb_true_r.
Qed.

(** The name [with_suffix] builds carries the suffix asked for. *)
Lemma with_suffix_ends n suf n' :
  Pathlib.with_suffix n suf = Some n' -> Py.ends_with suf n' = true.
Proof.
  unfold Pathlib.with_suffix. destruct n as [|a n]; [discriminate|].
  destruct (Py.rpartition "." (String a n)) as [[[|b pre] [|c post]]|];
    intros H; injection H as <-;
    first [ exact (ends_with_append suf (String a n))
          | exact (ends_with_append suf (String b pre)) ].
Qed.



Lemma sorted_glob_nil d pat ls :
  Py.sorted (Pathlib.glob d pat ls) = [] ->
  filter (Pathlib.fnmatch pat) ls = [].
Proof. intros H. now apply sorted_nil, glob_nil in H. Qed.

Lemma sorted_glob_cons d pat ls x l :
  Py.sorted (Pathlib.glob d pat ls) = x :: l ->
  filter (Pathlib.fnmatch pat) ls <> [].
Proof.
  intros H Hnil. unfold Pathlib.glob in H. rewrite Hnil in H. discriminate.
Qed.

End Pipeline.


(** Unfold one run of the pipeline and split on everything the outside
    world decides. *)
Ltac unfold_run :=
  unfold Thumbnails.main, Thumbnails.generate_thumbnails, Run.call,
    Run.with_tmpdir, Thumbnails.render_pages, Thumbnails.extract_raster,
    Thumbnails.compose, Run.bind, Run.subprocess_run, Run.grid_save,
    Run.lift, Run.listdir, Run.ret, Run.return_, Run.raise, Run.emit,
    Thumbnails.start.

Ltac step_run :=
  cbn -[Pathlib.glob Py.sorted Pathlib.with_suffix Pathlib.name
        Pathlib.absolute Pathlib.join Thumbnails.build_grid
        Thumbnails.open_all Py.str String.append Json.dumps
        Pathlib.fnmatch filter].

Ltac split_run :=
  step_run;
  repeat match goal with
  | |- context [match ?x with _ => _ end] =>
      match x with
      | Run.run _ _ _ => destruct x eqn:?
      | Pathlib.with_suffix _ _ => destruct x eqn:?
      | existsb _ _ => destruct x eqn:?
      | Pathlib.glob _ _ _ => destruct x eqn:?
      | Py.sorted _ => destruct x eqn:?
      | Thumbnails.open_all _ _ => destruct x eqn:?
      | Thumbnails.build_grid _ _ _ => destruct x as [[? ?]|?] eqn:?
      | Run.save _ _ _ => destruct x eqn:?
      end; step_run
  end.

(** Turn what the run saw of the sorted glob results into facts about the
    listings. *)
Ltac note_yields :=
  repeat match goal with
  | H : Py.sorted (Pathlib.glob _ _ _) = [] |- _ =>
      apply sorted_glob_nil in H
  | H : Py.sorted (Pathlib.glob _ _ _) = _ :: _ |- _ =>
      apply sorted_glob_cons in H
  end.

Section PipelineProperties.

Import Run Thumbnails Observe.
Local Open Scope Z_scope.

(** C8, as the code has it.  A run of the pipeline that returns, returns
    exactly one of two payloads: the success payload (output, slides,
    grid) with the canvas written once, to the output path, by a save that
    did not raise, or the error payload (error) with no save attempted.  A
    run a stage aborts with an exception returns no payload and has
    written no file; the one save it may have attempted is the one that
    raised the exception. *)
Theorem C8_result_variants (w : World) (filepath output_prefix : string) (cols dpi : Z) :
  match generate_thumbnails w filepath output_prefix cols dpi start with
  | (Returned d, s) =>
      (keys d = ["output"; "slides"; "grid"] /\
       Json.has_key "error" d = false /\
       save_failures (log s) = [] /\
       exists grid,
         saved (log s) = [(output_prefix ++ ".jpg", grid)] /\
         save w (output_prefix ++ ".jpg") grid = None)
      \/
      (keys d = ["error"] /\
       Json.has_key "output" d = false /\
       saved (log s) = [] /\
       save_failures (log s) = [])
  | (Raised e, s) =>
      saved (log s) = [] /\
      (save_failures (log s) = [] \/
       save_failures (log s) = [(output_prefix ++ ".jpg", e)])
  end.
Proof.
  unfold_run. split_run.
  all: try (split; [reflexivity | (left; reflexivity) || (right; reflexivity)]).
  all: try (right; repeat split; reflexivity).
  all: left; repeat split; eexists; split; [reflexivity | assumption].
Qed.

(** C8, as stated, fails: a renderer that runs into its time limit makes
    the run raise, so it returns neither payload. *)
Lemma C8_timeout_counterexample :
  fst (generate_thumbnails Samples.timeout_world "deck.pptx" "thumbnails" 4 150 start)
  = Raised TimeoutExpired /\
  forall d,
    fst (generate_thumbnails Samples.timeout_world "deck.pptx" "thumbnails" 4 150 start)
    <> Returned d.
Proof.
  split; [reflexivity|]. intros d. vm_compute. discriminate.
Qed.

(** C3.  The PNG extraction is attempted exactly when the JPEG extraction
    completed and left no file matching slide-*.jpg, and never more than
    once; when both leave no matching file the run returns the error
    payload and writes no output file. *)
Theorem C3_fallback_once (w : World) (filepath output_prefix : string) (cols dpi : Z) :
  let r := fst (generate_thumbnails w filepath output_prefix cols dpi start) in
  let t := log (snd (generate_thumbnails w filepath output_prefix cols dpi start)) in
  (attempts "-png" t <= 1)%nat /\
  (attempts "-png" t = 1%nat <-> yield "-jpeg" jpg_pattern t = Some []) /\
  (yield "-jpeg" jpg_pattern t = Some [] ->
   yield "-png" png_pattern t = Some [] ->
   r = Returned [("error", Json.JStr
         "Failed to convert PDF pages to images. Ensure pdftoppm (poppler) is installed.")]
   /\ saved t = []).
Proof.
  unfold_run. split_run.
  all: note_yields.
  all: cbn zeta; split; [lia|]; split; [split; intros; (congruence || lia)|].
  all: intros; split; (reflexivity || congruence).
Qed.

Lemma C3_fallback_once_witness :
  fst (generate_thumbnails Samples.no_raster_world "deck.pptx" "thumbnails" 4 150 start)
  = Returned [("error", Json.JStr
      "Failed to convert PDF pages to images. Ensure pdftoppm (poppler) is installed.")]
  /\ saved (log (snd (generate_thumbnails Samples.no_raster_world
                        "deck.pptx" "thumbnails" 4 150 start))) = [].
Proof.
  apply (C3_fallback_once Samples.no_raster_world "deck.pptx" "thumbnails" 4 150);
    reflexivity.
Defined.




Lemma append_assoc (a b c : string) : (a ++ b) ++ c = a ++ b ++ c.
Proof. induction a as [|x a IH]; simpl; [reflexivity|]. now rewrite IH. Qed.

Lemma dumps_error message :
  Json.dumps [("error", Json.JStr message)]
  = "{" ++ Json.newline ++ "  " ++ Json.quote ++ "error" ++ Json.quote ++ ": "
    ++ Json.quote ++ Json.escape message ++ Json.quote ++ Json.newline ++ "}".
Proof.
  unfold Json.dumps, Json.dumps_item, Json.dumps_value.
  cbn [map String.concat fst snd].
  change (Json.escape "error") with "error".
  rewrite !append_assoc. reflexivity.
Qed.

(** C5, as the code has it.  When the pipeline returns an error payload,
    the program prints that payload, a JSON object whose one field is
    error, on standard output, and no save of the output file was
    attempted.  When a stage aborts the pipeline with an exception, the
    program ends with status 1 having printed no JSON object and written
    no output file; the one save it may have attempted is the one that
    raised the exception. *)
Theorem C5_failure_report (w : World) (args : Args) :
  path_exists w (file args) = true ->
  let program := main w args in
  match generate_thumbnails w (file args) (output args) (cols args) (dpi args) start with
  | (Returned d, _) =>
      Json.has_key "error" d = true ->
      exists message,
        d = [("error", Json.JStr message)] /\
        printed (snd program)
        = ["{" ++ Json.newline ++ "  " ++ Json.quote ++ "error" ++ Json.quote ++ ": "
           ++ Json.quote ++ Json.escape message ++ Json.quote ++ Json.newline ++ "}"] /\
        saved (snd program) = [] /\
        save_failures (snd program) = []
  | (Raised e, _) =>
      fst program = 1 /\ printed (snd program) = [] /\ saved (snd program) = [] /\
      (save_failures (snd program) = [] \/
       save_failures (snd program) = [(output args ++ ".jpg", e)])
  end.
Proof.
  intros Hex. unfold main. rewrite Hex. cbn [negb].
  unfold_run. split_run.
  all: try (split; [reflexivity|]; split; [reflexivity|]; split; [reflexivity|];
            (left; reflexivity) || (right; reflexivity)).
  all: intros Herr; try discriminate Herr.
  all: eexists; split; [reflexivity|]; split; [|split; reflexivity].
  all: now rewrite dumps_error.
Qed.

Lemma C5_failure_report_witness :
  (exists message,
     [("error", Json.JStr "PDF conversion failed: Error: source file could not be loaded")]
     = [("error", Json.JStr message)] /\
     printed (snd (main Samples.no_pdf_world Samples.deck_args))
     = ["{" ++ Json.newline ++ "  " ++ Json.quote ++ "error" ++ Json.quote ++ ": "
        ++ Json.quote ++ Json.escape message ++ Json.quote ++ Json.newline ++ "}"] /\
     saved (snd (main Samples.no_pdf_world Samples.deck_args)) = [] /\
     save_failures (snd (main Samples.no_pdf_world Samples.deck_args)) = [])
  /\
  (fst (main Samples.primary_world Samples.missing_directory_args) = 1 /\
   printed (snd (main Samples.primary_world Samples.missing_directory_args)) = [] /\
   saved (snd (main Samples.primary_world Samples.missing_directory_args)) = [] /\
   (save_failures (snd (main Samples.primary_world Samples.missing_directory_args)) = [] \/
    save_failures (snd (main Samples.primary_world Samples.missing_directory_args))
    = [("out/thumbnails" ++ ".jpg", FileNotFoundError)])).
Proof.
  split.
  - refine (C5_failure_report Samples.no_pdf_world Samples.deck_args _ _);
      reflexivity.
  - refine (C5_failure_report Samples.primary_world Samples.missing_directory_args _).
    reflexivity.
Defined.

(** C5, as stated, fails.  A run whose pipeline returns an error payload
    ends with status 0; a run whose renderer runs into the time limit
    prints nothing on standard output; and so does a run whose save of the
    output file raises, here for an output prefix in a directory that does
    not exist. *)
Lemma C5_exit_status_counterexample :
  fst (generate_thumbnails Samples.no_pdf_world "deck.pptx" "thumbnails" 4 150 start)
  = Returned [("error", Json.JStr
      "PDF conversion failed: Error: source file could not be loaded")] /\
  fst (main Samples.no_pdf_world Samples.deck_args) = 0 /\
  fst (generate_thumbnails Samples.timeout_world "deck.pptx" "thumbnails" 4 150 start)
  = Raised TimeoutExpired /\
  printed (snd (main Samples.timeout_world Samples.deck_args)) = [] /\
  fst (generate_thumbnails Samples.primary_world "deck.pptx" "out/thumbnails" 4 150 start)
  = Raised FileNotFoundError /\
  printed (snd (main Samples.primary_world Samples.missing_directory_args)) = [] /\
  save_failures (snd (main Samples.primary_world Samples.missing_directory_args))
  = [("out/thumbnails.jpg", FileNotFoundError)].
Proof. repeat split; reflexivity. Qed.

(** C4, on the code.  For an input path that does not exist the program
    ends with status 1 and starts no external process; what it prints is
    the line "Error: File not found: <file>", which is not the JSON object
    with the field error. *)
Theorem C4_missing_input (w : World) (args : Args) :
  path_exists w (file args) = false ->
  main w args = (1, [Stdout ("Error: File not found: " ++ file args)]) /\
  spawned (snd (main w args)) = [] /\
  saved (snd (main w args)) = [] /\
  printed (snd (main w args))
  <> [Json.dumps [("error", Json.JStr ("File not found: " ++ file args))]].
Proof.
  intros Hex. unfold main. rewrite Hex. cbn [negb].
  repeat split. cbn. intros H. discriminate H.
Qed.

Lemma C4_missing_input_witness :
  main Samples.primary_world Samples.missing_args
  = (1, [Stdout ("Error: File not found: " ++ "missing.pptx")]) /\
  spawned (snd (main Samples.primary_world Samples.missing_args)) = [] /\
  saved (snd (main Samples.primary_world Samples.missing_args)) = [] /\
  printed (snd (main Samples.primary_world Samples.missing_args))
  <> [Json.dumps [("error", Json.JStr ("File not found: " ++ "missing.pptx"))]].
Proof.
  apply (C4_missing_input Samples.primary_world Samples.missing_args).
  reflexivity.
Defined.




End PipelineProperties.

(** ** The order of the raster files *)

Section RasterOrder.

Import Run Thumbnails Observe Layout.
Local Open Scope Z_scope.

Lemma ascii_compare_refl c : Ascii.compare c c = Eq.
Proof. unfold Ascii.compare. apply N.compare_refl. Qed.

Lemma ascii_compare_lt_trans a b c :
  Ascii.compare a b = Lt -> Ascii.compare b c = Lt -> Ascii.compare a c = Lt.
Proof.
  unfold Ascii.compare. rewrite !N.compare_lt_iff. apply N.lt_trans.
Qed.

Lemma compare_lt_trans s1 :
  forall s2 s3,
    String.compare s1 s2 = Lt -> String.compare s2 s3 = Lt ->
    String.compare s1 s3 = Lt.
Proof.
  induction s1 as [|a s1 IH]; intros [|b s2] [|c s3]; simpl; try easy.
  destruct (Ascii.compare a b) eqn:Hab; try easy;
    destruct (Ascii.compare b c) eqn:Hbc; try easy; intros H12 H23.
  - apply Ascii.compare_eq_iff in Hab, Hbc. subst.
    rewrite ascii_compare_refl. now apply IH with s2.
  - apply Ascii.compare_eq_iff in Hab. subst. now rewrite Hbc.
  - apply Ascii.compare_eq_iff in Hbc. subst. now rewrite Hab.
  - now rewrite (ascii_compare_lt_trans a b c).
Qed.

Lemma leb_trans s1 s2 s3 :
  String.leb s1 s2 = true -> String.leb s2 s3 = true -> String.leb s1 s3 = true.
Proof.
  unfold String.leb.
  destruct (String.compare s1 s2) eqn:H12; try easy;
    destruct (String.compare s2 s3) eqn:H23; try easy; intros _ _.
  - apply String.compare_eq_iff in H12. subst. now rewrite H23.
  - apply String.compare_eq_iff in H12. subst. now rewrite H23.
  - apply String.compare_eq_iff in H23. subst. now rewrite H12.
  - now rewrite (compare_lt_trans s1 s2 s3).
Qed.

Lemma ltb_leb s h : String.ltb s h = true -> String.leb s h = true.
Proof.
  unfold String.ltb, String.leb. now destruct (String.compare s h).
Qed.

Lemma not_ltb_leb s h : String.ltb s h = false -> String.leb h s = true.
Proof.
  unfold String.ltb, String.leb. rewrite (String.compare_antisym h s).
  now destruct (String.compare s h).
Qed.

Lemma insert_sorted_perm s l : Permutation (Py.insert_sorted s l) (s :: l).
Proof.
  induction l as [|h t IH]; simpl; [reflexivity|].
  destruct (String.ltb s h); [reflexivity|].
  rewrite IH. apply perm_swap.
Qed.

Lemma sorted_perm l : Permutation (Py.sorted l) l.
Proof.
  induction l as [|h t IH]; simpl; [reflexivity|].
  rewrite insert_sorted_perm. now constructor.
Qed.

Lemma insert_sorted_ascending s l :
  ascending l -> ascending (Py.insert_sorted s l).
Proof.
  unfold ascending. induction 1 as [|h t Ht IH Hh]; simpl.
  - constructor; constructor.
  - destruct (String.ltb s h) eqn:Hs.
    + constructor; [now constructor|]. constructor; [now apply ltb_leb|].
      apply Forall_forall. intros x Hx.
      apply leb_trans with h; [now apply ltb_leb|].
      rewrite Forall_forall in Hh. now apply Hh.
    + constructor; [exact IH|].
      apply Forall_forall. intros x Hx.
      apply (Permutation_in _ (insert_sorted_perm s t)) in Hx.
      destruct Hx as [<-|Hx]; [now apply not_ltb_leb|].
      rewrite Forall_forall in Hh. now apply Hh.
Qed.

Lemma sorted_ascending l : ascending (Py.sorted l).
Proof.
  induction l as [|h t IH]; simpl; [constructor|].
  now apply insert_sorted_ascending.
Qed.

(** Two ascending arrangements of the same names are the same list. *)
Lemma ascending_unique l1 :
  forall l2, ascending l1 -> ascending l2 -> Permutation l1 l2 -> l1 = l2.
Proof.
  unfold ascending.
  induction l1 as [|a l1 IH]; intros l2 H1 H2 Hp.
  - apply Permutation_nil in Hp. now subst.
  - destruct l2 as [|b l2].
    { apply Permutation_sym, Permutation_nil in Hp. discriminate. }
    inversion H1 as [|? ? Ht1 Hh1]; subst.
    inversion H2 as [|? ? Ht2 Hh2]; subst.
    rewrite Forall_forall in Hh1, Hh2.
    assert (Hab : a = b).
    { assert (Hb : In b (a :: l1)).
      { apply (Permutation_in _ (Permutation_sym Hp)). now left. }
      assert (Ha : In a (b :: l2)).
      { apply (Permutation_in _ Hp). now left. }
      destruct Hb as [Hb|Hb]; [exact Hb|].
      destruct Ha as [Ha|Ha]; [now symmetry|].
      apply String.leb_antisym; [now apply Hh1 | now apply Hh2]. }
    subst b. f_equal. apply IH; try assumption.
    now apply Permutation_cons_inv with a.
Qed.

Lemma filter_perm {A} (f : A -> bool) l l' :
  Permutation l l' -> Permutation (filter f l) (filter f l').
Proof.
  induction 1 as [|x l l' _ IH|x y l|l l' l'' _ IH1 _ IH2]; simpl.
  - constructor.
  - destruct (f x); [now constructor | exact IH].
  - destruct (f x), (f y); try reflexivity. apply perm_swap.
  - now transitivity (filter f l').
Qed.

(** Line 38 (and 45): the raster files the composition works on are
    exactly the entries of the scratch directory that match the pattern,
    each once per entry, in ascending code-point order of their paths; the
    order in which the directory lists them does not matter. *)
Theorem raster_files_sorted (d : string) (pat : Pathlib.Pattern) (ls ls' : list string) :
  Permutation ls ls' ->
  ascending (Py.sorted (Pathlib.glob d pat ls)) /\
  Permutation (Py.sorted (Pathlib.glob d pat ls))
              (map (Pathlib.join d) (filter (Pathlib.fnmatch pat) ls)) /\
  Py.sorted (Pathlib.glob d pat ls) = Py.sorted (Pathlib.glob d pat ls').
Proof.
  intros Hp. split; [apply sorted_ascending|]. split; [apply sorted_perm|].
  apply ascending_unique; try apply sorted_ascending.
  rewrite !sorted_perm. unfold Pathlib.glob.
  apply Permutation_map. now apply filter_perm.
Qed.

Lemma raster_files_sorted_witness :
  ascending (Py.sorted (Pathlib.glob "/t" jpg_pattern
                          ["slide-2.jpg"; "deck.pdf"; "slide-1.jpg"])) /\
  Permutation (Py.sorted (Pathlib.glob "/t" jpg_pattern
                            ["slide-2.jpg"; "deck.pdf"; "slide-1.jpg"]))
              (map (Pathlib.join "/t")
                   (filter (Pathlib.fnmatch jpg_pattern)
                           ["slide-2.jpg"; "deck.pdf"; "slide-1.jpg"])) /\
  Py.sorted (Pathlib.glob "/t" jpg_pattern ["slide-2.jpg"; "deck.pdf"; "slide-1.jpg"])
  = Py.sorted (Pathlib.glob "/t" jpg_pattern ["deck.pdf"; "slide-2.jpg"; "slide-1.jpg"]).
Proof.
  apply (raster_files_sorted "/t" jpg_pattern
           ["slide-2.jpg"; "deck.pdf"; "slide-1.jpg"]
           ["deck.pdf"; "slide-2.jpg"; "slide-1.jpg"]).
  apply perm_swap.
Defined.

End RasterOrder.

(** ** More on the grid *)

Section GridLayout.

Import Run Thumbnails Observe Layout.
Local Open Scope Z_scope.

Lemma cells_length cols th images :
  forall k, List.length (cells cols th k images) = (2 * List.length images)%nat.
Proof.
  induction images as [|im rest IH]; intros k; simpl; [reflexivity|].
  rewrite IH. lia.
Qed.

Lemma labels_cells cols th images :
  forall k : nat,
    labels (cells cols th (Z.of_nat k) images)
    = map label (seq k (List.length images)).
Proof.
  induction images as [|im rest IH]; intros k; simpl; [reflexivity|].
  f_equal. replace (Z.of_nat k + 1) with (Z.of_nat (S k)) by lia. apply IH.
Qed.

Lemma boxes_cells_nth cols th images :
  forall k (i : nat) b,
    nth_error (boxes (cells cols th k images)) i = Some b ->
    (i < List.length images)%nat /\
    b = {| box_left := padding + ((k + Z.of_nat i) mod cols) * (thumb_w + padding);
           box_top := padding + ((k + Z.of_nat i) / cols) * (th + padding + label_h)
                      + label_h;
           box_right := padding + ((k + Z.of_nat i) mod cols) * (thumb_w + padding)
                        + thumb_w;
           box_bottom := padding + ((k + Z.of_nat i) / cols) * (th + padding + label_h)
                         + label_h + th |}.
Proof.
  induction images as [|im rest IH]; intros k i b H.
  - destruct i; discriminate.
  - destruct i as [|i]; simpl in H.
    + injection H as <-. split; [simpl; lia|].
      replace (k + Z.of_nat 0) with k by lia. reflexivity.
    + apply IH in H. destruct H as [Hi ->]. split; [simpl; lia|].
      replace (k + 1 + Z.of_nat i) with (k + Z.of_nat (S i)) by lia. reflexivity.
Qed.

Lemma boxes_cells_length cols th images :
  forall k, List.length (boxes (cells cols th k images)) = List.length images.
Proof.
  induction images as [|im rest IH]; intros k; simpl; [reflexivity|].
  now rewrite IH.
Qed.

(** Two cells in reading order: the later one sits to the right in the
    same row, or in a lower row. *)
Lemma cells_apart cols th a b :
  1 <= cols -> 0 <= th -> 0 <= a < b ->
  padding + (a mod cols) * (thumb_w + padding) + thumb_w
  <= padding + (b mod cols) * (thumb_w + padding)
  \/ padding + (a / cols) * (th + padding + label_h) + label_h + th
     <= padding + (b / cols) * (th + padding + label_h) + label_h.
Proof.
  intros Hc Hth Hab.
  pose proof (Z.div_mod a cols ltac:(lia)) as Ha.
  pose proof (Z.div_mod b cols ltac:(lia)) as Hb.
  pose proof (Z.mod_pos_bound a cols ltac:(lia)) as Hma.
  pose proof (Z.mod_pos_bound b cols ltac:(lia)) as Hmb.
  assert (Hq : a / cols <= b / cols) by (apply Z.div_le_mono; lia).
  unfold thumb_w, padding, label_h.
  destruct (Z.eq_dec (a / cols) (b / cols)) as [Heq|Hne].
  - left. rewrite Heq in Ha. nia.
  - right. nia.
Qed.

(** Py.str is one-to-one. *)
Lemma str_inj a b : Py.str a = Py.str b -> a = b.
Proof.
  unfold Py.str. intros H.
  assert (Hn : forall z, Z.to_int z <> Decimal.Pos Decimal.Nil
                         /\ Z.to_int z <> Decimal.Neg Decimal.Nil).
  { intros [|p|p]; simpl; split; try discriminate;
      intros [= E]; now apply DecimalPos.Unsigned.to_uint_nonnil in E. }
  apply (f_equal NilZero.int_of_string) in H.
  rewrite !NilZero.isi in H by apply Hn.
  injection H as H. now apply to_int_inj.
Qed.

Lemma label_inj i j : label i = label j -> i = j.
Proof.
  unfold label. intros H. injection H as H. apply str_inj in H. lia.
Qed.

Lemma map_label_NoDup l : NoDup l -> NoDup (map label l).
Proof.
  induction 1 as [|x l Hx _ IH]; simpl; constructor; [|exact IH].
  intros Hin. apply in_map_iff in Hin. destruct Hin as (y & Hy & Hin).
  apply label_inj in Hy. now subst.
Qed.

(** Lines 67-74: on a paintable sequence no two thumbnails overlap on the
    canvas.  There is one pasted rectangle per image, and the rectangles
    of two different images are disjoint. *)
Theorem thumbnails_disjoint (alloc : Z -> Z -> bool) (first : PIL.Image)
  (rest : list PIL.Image) (cols : Z) :
  paintable alloc first rest cols ->
  exists rows grid,
    build_grid alloc (first :: rest) cols = Ok (rows, grid) /\
    List.length (boxes (PIL.ops grid)) = List.length (first :: rest) /\
    forall (i j : nat) (bi bj : Box),
      i <> j ->
      nth_error (boxes (PIL.ops grid)) i = Some bi ->
      nth_error (boxes (PIL.ops grid)) j = Some bj ->
      disjoint bi bj.
Proof.
  intros Hp.
  destruct (build_grid_ok alloc first rest cols Hp) as (_ & Hth & _ & _ & Hb).
  destruct Hp as (Hc & _).
  eexists _, _. split; [exact Hb|]. cbn [PIL.ops].
  split; [apply boxes_cells_length|].
  intros i j bi bj Hij Hi Hj.
  apply boxes_cells_nth in Hi, Hj. destruct Hi as [_ ->], Hj as [_ ->].
  unfold disjoint. cbn [box_left box_top box_right box_bottom].
  rewrite !Z.add_0_l.
  destruct (Nat.lt_ge_cases i j) as [Hlt|Hge].
  - destruct (cells_apart cols (plain_thumb_h first) (Z.of_nat i) (Z.of_nat j)
                Hc ltac:(lia) ltac:(lia));
      [left | right; right; left]; assumption.
  - destruct (cells_apart cols (plain_thumb_h first) (Z.of_nat j) (Z.of_nat i)
                Hc ltac:(lia) ltac:(lia));
      [right; left | right; right; right]; assumption.
Qed.

Lemma thumbnails_disjoint_witness :
  exists rows grid,
    build_grid Samples.roomy Samples.ten_pages 4 = Ok (rows, grid) /\
    List.length (boxes (PIL.ops grid)) = List.length Samples.ten_pages /\
    forall (i j : nat) (bi bj : Box),
      i <> j ->
      nth_error (boxes (PIL.ops grid)) i = Some bi ->
      nth_error (boxes (PIL.ops grid)) j = Some bj ->
      disjoint bi bj.
Proof.
  apply (thumbnails_disjoint Samples.roomy Samples.page_4x3 (repeat Samples.page_3x2 9) 4).
  sample_paintable.
Defined.

(** Lines 67-75: the canvas painted for N images carries exactly N pasted
    pictures and N labels and nothing else; the labels are "Slide 0" to
    "Slide N-1" in that order, and no two of them are equal. *)
Theorem canvas_inventory (alloc : Z -> Z -> bool) (first : PIL.Image)
  (rest : list PIL.Image) (cols : Z) :
  paintable alloc first rest cols ->
  let n := List.length (first :: rest) in
  exists rows grid,
    build_grid alloc (first :: rest) cols = Ok (rows, grid) /\
    List.length (PIL.ops grid) = (2 * n)%nat /\
    List.length (pasted (PIL.ops grid)) = n /\
    labels (PIL.ops grid)
    = map (fun i => "Slide " ++ NilZero.string_of_uint (Nat.to_uint i)) (seq 0 n) /\
    NoDup (labels (PIL.ops grid)).
Proof.
  intros Hp n.
  destruct (build_grid_ok alloc first rest cols Hp) as (_ & _ & _ & _ & Hb).
  eexists _, _. split; [exact Hb|]. cbn [PIL.ops].
  split; [apply cells_length|].
  split; [rewrite pasted_cells; apply length_map|].
  assert (Hl : labels (cells cols (plain_thumb_h first) 0 (first :: rest))
               = map label (seq 0 n)) by apply (labels_cells _ _ _ 0%nat).
  rewrite Hl. split.
  - apply map_ext. intros i. unfold label. now rewrite str_of_nat.
  - apply map_label_NoDup, seq_NoDup.
Qed.

Lemma canvas_inventory_witness :
  exists rows grid,
    build_grid Samples.roomy Samples.ten_pages 4 = Ok (rows, grid) /\
    List.length (PIL.ops grid) = 20%nat /\
    List.length (pasted (PIL.ops grid)) = 10%nat /\
    labels (PIL.ops grid)
    = ["Slide 0"; "Slide 1"; "Slide 2"; "Slide 3"; "Slide 4";
       "Slide 5"; "Slide 6"; "Slide 7"; "Slide 8"; "Slide 9"] /\
    NoDup (labels (PIL.ops grid)).
Proof.
  apply (canvas_inventory Samples.roomy Samples.page_4x3 (repeat Samples.page_3x2 9) 4).
  sample_paintable.
Defined.

(** Line 55: for N >= 1 images in C >= 1 columns, both within the
    integers binary64 holds exactly, the row count never exceeds the
    number of images, is 1 exactly when all images fit in one row, is N
    for a single column, and leaves fewer than one row of cells unused. *)
Theorem rows_bounds (N cols : Z) :
  1 <= N -> 1 <= cols -> Py.exact N -> Py.exact cols ->
  exists rows,
    grid_rows N cols = Ok rows /\
    1 <= rows <= N /\
    (rows = 1 <-> N <= cols) /\
    (cols = 1 -> rows = N) /\
    0 <= rows * cols - N < cols.
Proof.
  intros HN Hc _ _.
  pose proof (ceil_div_spec N cols Hc) as Hs.
  unfold grid_rows. destruct (Z.eqb_spec cols 0); [lia|].
  eexists. split; [reflexivity|].
  set (rows := Py.ceil_div N cols) in *.
  split; [nia|].
  split; [split; intros H; nia|].
  split; [intros ->; lia | nia].
Qed.

Lemma rows_bounds_witness :
  (exists rows,
     grid_rows 10 4 = Ok rows /\
     1 <= rows <= 10 /\
     (rows = 1 <-> 10 <= 4) /\
     (4 = 1 -> rows = 10) /\
     0 <= rows * 4 - 10 < 4) /\
  (exists rows,
     grid_rows 3 1 = Ok rows /\
     1 <= rows <= 3 /\
     (rows = 1 <-> 3 <= 1) /\
     (1 = 1 -> rows = 3) /\
     0 <= rows * 1 - 3 < 1) /\
  (exists rows,
     grid_rows 2 4 = Ok rows /\
     1 <= rows <= 2 /\
     (rows = 1 <-> 2 <= 4) /\
     (4 = 1 -> rows = 2) /\
     0 <= rows * 4 - 2 < 4).
Proof.
  split; [|split].
  - apply (rows_bounds 10 4); first [lia | unfold Py.exact; split; reflexivity].
  - apply (rows_bounds 3 1); first [lia | unfold Py.exact; split; reflexivity].
  - apply (rows_bounds 2 4); first [lia | unfold Py.exact; split; reflexivity].
Defined.

(** Lines 55-62: a column count the canvas cannot be made for never builds
    a grid.  With opened images, zero columns raise ZeroDivisionError (the
    division of line 55), a negative count raises ValueError (the canvas of
    line 62 would have a negative width), and a count whose canvas would be
    wider than a C int holds raises OverflowError (line 62). *)
Theorem build_grid_columns (alloc : Z -> Z -> bool) (first : PIL.Image)
  (rest : list PIL.Image) (cols : Z) :
  PIL.valid first ->
  cols <= 0 \/ PIL.int_max < cols * (thumb_w + padding) + padding ->
  build_grid alloc (first :: rest) cols
  = Err (if cols =? 0 then ZeroDivisionError
         else if cols <? 0 then ValueError
         else OverflowError).
Proof.
  intros Hv Hc.
  destruct (thumb_height_valid first Hv) as (Ht & Hth & _).
  unfold build_grid, geometry, grid_rows. rewrite Ht.
  destruct (Z.eqb_spec cols 0) as [|Hc0]; [reflexivity|].
  cbn [g_grid_w g_grid_h g_thumb_h g_rows]. unfold PIL.new.
  destruct (Z.ltb_spec cols 0) as [Hneg|Hpos].
  - destruct (Z.ltb_spec (cols * (thumb_w + padding) + padding) 0);
      [reflexivity | unfold thumb_w, padding in *; lia].
  - assert (H1 : 1 <= cols) by lia.
    destruct Hc as [Hc|Hc]; [lia|].
    pose proof (ceil_div_spec (Z.of_nat (List.length (first :: rest))) cols H1) as Hs.
    simpl List.length in *.
    destruct (Z.ltb_spec (cols * (thumb_w + padding) + padding) 0);
      [unfold thumb_w, padding in *; lia|].
    destruct (Z.ltb_spec
                (Py.ceil_div (Z.of_nat (S (List.length rest))) cols
                 * (plain_thumb_h first + padding + label_h) + padding) 0);
      [unfold padding, label_h in *; nia|].
    destruct (Z.ltb_spec PIL.int_max (cols * (thumb_w + padding) + padding));
      [reflexivity | lia].
Qed.

Lemma build_grid_columns_witness :
  build_grid Samples.roomy Samples.ten_pages 0 = Err ZeroDivisionError /\
  build_grid Samples.roomy Samples.ten_pages (-2) = Err ValueError /\
  build_grid Samples.roomy Samples.ten_pages 5237765 = Err OverflowError.
Proof.
  split; [|split].
  - apply (build_grid_columns Samples.roomy Samples.page_4x3
             (repeat Samples.page_3x2 9) 0).
    + unfold PIL.valid, PIL.int_max; simpl; lia.
    + left; lia.
  - apply (build_grid_columns Samples.roomy Samples.page_4x3
             (repeat Samples.page_3x2 9) (-2)).
    + unfold PIL.valid, PIL.int_max; simpl; lia.
    + left; lia.
  - apply (build_grid_columns Samples.roomy Samples.page_4x3
             (repeat Samples.page_3x2 9) 5237765).
    + unfold PIL.valid, PIL.int_max; simpl; lia.
    + right; unfold PIL.int_max, thumb_w, padding; lia.
Defined.



(** Lines 52-75: on opened images the composition comes to its end
    exactly when the sequence is paintable: at least one column, a first
    page at most 400 times as wide as high, every page readable, and a
    canvas that fits a C int and the storage there is. *)
Theorem built_iff_paintable (alloc : Z -> Z -> bool) (first : PIL.Image)
  (rest : list PIL.Image) (cols : Z) :
  PIL.valid first ->
  (exists rows grid, build_grid alloc (first :: rest) cols = Ok (rows, grid))
  <-> paintable alloc first rest cols.
Proof.
  intros Hv. split.
  - intros (rows & grid & Hb). now apply built_paintable with rows grid.
  - intros Hp.
    destruct (build_grid_ok alloc first rest cols Hp) as (_ & _ & _ & _ & Hb).
    eexists _, _. exact Hb.
Qed.

Lemma built_iff_paintable_witness :
  (exists rows grid, build_grid Samples.roomy Samples.ten_pages 4 = Ok (rows, grid))
  <-> paintable Samples.roomy Samples.page_4x3 (repeat Samples.page_3x2 9) 4.
Proof.
  apply (built_iff_paintable Samples.roomy Samples.page_4x3 (repeat Samples.page_3x2 9) 4).
  unfold PIL.valid, PIL.int_max; simpl; lia.
Defined.

End GridLayout.

(** ** More on the pipeline *)

Section PipelineRuns.

Import Run Thumbnails Observe Layout.
Local Open Scope Z_scope.

Lemma glob_head d pat ls p l :
  Pathlib.glob d pat ls = p :: l ->
  exists name, p = Pathlib.join d name /\ In name ls /\ Pathlib.fnmatch pat name = true.
Proof.
  intros H.
  assert (Hin : In p (Pathlib.glob d pat ls)) by (rewrite H; now left).
  unfold Pathlib.glob in Hin. apply in_map_iff in Hin.
  destruct Hin as (name & <- & Hin). apply filter_In in Hin.
  exists name. now repeat split.
Qed.

(** Lines 18-45: a run starts one, two or three external processes, in
    this order: the renderer on the absolute path of the deck, the JPEG
    extraction, the PNG extraction.  Both extractions get the resolution
    asked for, the same PDF, which lies in the scratch directory and is
    named *.pdf, and the same output prefix in the scratch directory. *)
Theorem process_sequence (w : World) (filepath output_prefix : string) (cols dpi : Z) :
  let tmpdir := mkdtemp w in
  let path := Pathlib.absolute (cwd w) filepath in
  let t := log (snd (generate_thumbnails w filepath output_prefix cols dpi start)) in
  spawned t = [soffice_argv tmpdir path] \/
  exists name,
    Py.ends_with ".pdf" name = true /\
    let primary := pdftoppm_argv "-jpeg" dpi (Pathlib.join tmpdir name)
                     (Pathlib.join tmpdir "slide") in
    let fallback := pdftoppm_argv "-png" dpi (Pathlib.join tmpdir name)
                      (Pathlib.join tmpdir "slide") in
    (spawned t = [soffice_argv tmpdir path; primary] \/
     spawned t = [soffice_argv tmpdir path; primary; fallback]).
Proof.
  unfold_run. split_run.
  all: try (left; reflexivity).
  all: right.
  all: try match goal with
       | H : Pathlib.with_suffix _ _ = Some ?n, E : existsb _ _ = true |- _ =>
           exists n; split; [eapply with_suffix_ends; exact H|];
           cbn zeta; (left; reflexivity) || (right; reflexivity)
       end.
  all: match goal with
       | H : Pathlib.glob _ _ _ = _ :: _ |- _ =>
           apply glob_head in H; destruct H as (name & -> & _ & Hm);
           exists name; split; [exact Hm|];
           cbn zeta; (left; reflexivity) || (right; reflexivity)
       end.
Qed.

(** Lines 55-78: a column count of zero or less never produces an output
    file, whatever the converters do; such a run raises or returns an
    error payload. *)
Theorem no_output_without_columns (w : World) (filepath output_prefix : string)
  (cols dpi : Z) :
  cols <= 0 ->
  saved (log (snd (generate_thumbnails w filepath output_prefix cols dpi start))) = [] /\
  forall d,
    fst (generate_thumbnails w filepath output_prefix cols dpi start) = Returned d ->
    keys d = ["error"].
Proof.
  intros Hc. unfold_run. split_run.
  all: try match goal with
       | H : build_grid _ _ _ = Ok _ |- _ =>
           apply build_grid_inv in H;
           destruct H as (? & ? & ? & _ & _ & H & _); lia
       end.
  all: split; [reflexivity|]; intros d Hd; try discriminate Hd.
  all: injection Hd as <-; reflexivity.
Qed.

Lemma no_output_without_columns_witness :
  saved (log (snd (generate_thumbnails Samples.primary_world
                     "deck.pptx" "thumbnails" 0 150 start))) = [] /\
  forall d,
    fst (generate_thumbnails Samples.primary_world "deck.pptx" "thumbnails" 0 150 start)
    = Returned d ->
    keys d = ["error"].
Proof.
  apply (no_output_without_columns Samples.primary_world "deck.pptx" "thumbnails" 0 150).
  lia.
Defined.

(** Lines 28 and 48: there are two error payloads and no other.  The
    first carries the renderer's stderr and is returned after exactly one
    process, the renderer, which completed; the second is returned after
    exactly three processes, one renderer run and one extraction of each
    encoding. *)
Theorem error_payloads (w : World) (filepath output_prefix : string) (cols dpi : Z)
  (d : Json.Dict) :
  let t := log (snd (generate_thumbnails w filepath output_prefix cols dpi start)) in
  fst (generate_thumbnails w filepath output_prefix cols dpi start) = Returned d ->
  Json.has_key "error" d = true ->
  (exists returncode out diagnostics ls,
     run w (soffice_argv (mkdtemp w) (Pathlib.absolute (cwd w) filepath)) []
     = Completed returncode out diagnostics ls /\
     d = [("error", Json.JStr ("PDF conversion failed: " ++ diagnostics))] /\
     List.length (spawned t) = 1%nat)
  \/
  (d = [("error", Json.JStr
          "Failed to convert PDF pages to images. Ensure pdftoppm (poppler) is installed.")] /\
   List.length (spawned t) = 3%nat /\
   attempts "-jpeg" t = 1%nat /\ attempts "-png" t = 1%nat).
Proof.
  unfold_run. split_run.
  all: intros Hd Hk; try discriminate Hd; injection Hd as <-; try discriminate Hk.
  all: try (right; repeat split; reflexivity).
  all: left; eexists _, _, _, _; repeat split; reflexivity.
Qed.

Lemma error_payloads_witness :
  (exists returncode out diagnostics ls,
     run Samples.no_raster_world
         (soffice_argv (mkdtemp Samples.no_raster_world)
            (Pathlib.absolute (cwd Samples.no_raster_world) "deck.pptx")) []
     = Completed returncode out diagnostics ls /\
     [("error", Json.JStr
         "Failed to convert PDF pages to images. Ensure pdftoppm (poppler) is installed.")]
     = [("error", Json.JStr ("PDF conversion failed: " ++ diagnostics))] /\
     List.length (spawned (log (snd (generate_thumbnails Samples.no_raster_world
                                       "deck.pptx" "thumbnails" 4 150 start)))) = 1%nat)
  \/
  ([("error", Json.JStr
       "Failed to convert PDF pages to images. Ensure pdftoppm (poppler) is installed.")]
   = [("error", Json.JStr
         "Failed to convert PDF pages to images. Ensure pdftoppm (poppler) is installed.")] /\
   List.length (spawned (log (snd (generate_thumbnails Samples.no_raster_world
                                     "deck.pptx" "thumbnails" 4 150 start)))) = 3%nat /\
   attempts "-jpeg" (log (snd (generate_thumbnails Samples.no_raster_world
                                 "deck.pptx" "thumbnails" 4 150 start))) = 1%nat /\
   attempts "-png" (log (snd (generate_thumbnails Samples.no_raster_world
                                "deck.pptx" "thumbnails" 4 150 start))) = 1%nat).
Proof.
  apply (error_payloads Samples.no_raster_world "deck.pptx" "thumbnails" 4 150);
    reflexivity.
Defined.

Lemma open_all_ok_iff (w : World) (paths : list string) (images : list PIL.Image) :
  open_all w paths = Ok images <-> map (image_open w) paths = map Some images.
Proof.
  revert images. induction paths as [|p rest IH]; intros images; simpl.
  - destruct images; simpl; split; intros H; try reflexivity; discriminate H.
  - destruct (image_open w p) as [img|] eqn:Hp.
    + destruct (open_all w rest) as [imgs|e].
      * split; intros H.
        -- injection H as <-. simpl. f_equal. now apply IH.
        -- destruct images as [|i images]; [discriminate H|].
           injection H as <- H. apply IH in H. now injection H as <-.
      * split; intros H; [discriminate H|].
        destruct images as [|i images]; [discriminate H|].
        injection H as _ H. apply IH in H. discriminate H.
    + split; intros H; [discriminate H|].
      destruct images; discriminate H.
Qed.

Lemma open_all_err (w : World) (paths : list string) (e : Exn) :
  open_all w paths = Err e -> e = UnidentifiedImageError.
Proof.
  induction paths as [|p rest IH]; simpl; [discriminate|].
  destruct (image_open w p); [|now intros [= <-]].
  destruct (open_all w rest); [discriminate|].
  intros [= <-]. now apply IH.
Qed.

Lemma open_all_length w paths images :
  open_all w paths = Ok images -> List.length images = List.length paths.
Proof.
  intros H. apply open_all_ok_iff in H.
  apply (f_equal (@List.length _)) in H. rewrite !length_map in H. now symmetry.
Qed.

(** Line 51: the images are loaded all or none.  When every file decodes,
    the result lists the decoded images in the order of the paths; else the
    call raises, and some path of the list is one Pillow cannot decode. *)
Theorem open_all_all_or_none (w : World) (paths : list string) :
  match open_all w paths with
  | Ok images => map (image_open w) paths = map Some images
  | Err e =>
      e = UnidentifiedImageError /\
      exists p, In p paths /\ image_open w p = None
  end.
Proof.
  induction paths as [|p rest IH]; simpl; [reflexivity|].
  destruct (image_open w p) as [img|] eqn:Hp.
  - destruct (open_all w rest) as [imgs|e].
    + simpl. now rewrite IH.
    + destruct IH as (-> & q & Hq & Hnone). split; [reflexivity|].
      exists q. split; [now right | exact Hnone].
  - split; [reflexivity|]. exists p. split; [now left | exact Hp].
Qed.

(** A run that got raster files from either extraction ends as the
    loading, the composition and the saving of these files end. *)
Lemma run_after_extraction (w : World) (filepath output_prefix : string) (cols dpi : Z)
  (names : list string) :
  let r := fst (generate_thumbnails w filepath output_prefix cols dpi start) in
  let t := log (snd (generate_thumbnails w filepath output_prefix cols dpi start)) in
  (yield "-jpeg" jpg_pattern t = Some names
   \/ (yield "-jpeg" jpg_pattern t = Some [] /\
       yield "-png" png_pattern t = Some names)) ->
  names <> [] ->
  (r, written t, save_failures t) = downstream w names cols output_prefix.
Proof.
  unfold downstream. unfold_run. split_run.
  all: intros [Hy | [Hy0 Hy]] Hne.
  all: try discriminate Hy.
  all: try injection Hy0 as Hy0.
  all: injection Hy as Hy.
  all: subst names.
  all: try match goal with
       | H : Py.sorted (Pathlib.glob _ _ _) = [] |- _ =>
           apply sorted_glob_nil in H; congruence
       end.
  all: try match goal with
       | H : Py.sorted (Pathlib.glob _ _ _) = _ :: _ |- _ =>
           apply sorted_glob_cons in H; congruence
       end.
  all: unfold Pathlib.glob in *.
  all: repeat match goal with
       | H : Py.sorted _ = _ :: _ |- _ => try rewrite H in *; clear H
       end.
  all: congruence.
Qed.

(** A log without a save that wrote a file has no file saved. *)
Lemma written_nil_saved (t : list Event) : written t = [] -> saved t = [].
Proof.
  induction t as [|[] t IH]; simpl; try exact IH; [reflexivity | discriminate].
Qed.

(** What a run that returns the success payload went through. *)
Lemma success_inv (w : World) (filepath output_prefix : string) (cols dpi : Z)
  (d : Json.Dict) :
  let t := log (snd (generate_thumbnails w filepath output_prefix cols dpi start)) in
  fst (generate_thumbnails w filepath output_prefix cols dpi start) = Returned d ->
  Json.has_key "output" d = true ->
  exists names images first rest th,
    (yield "-jpeg" jpg_pattern t = Some names
     \/ (yield "-jpeg" jpg_pattern t = Some [] /\
         yield "-png" png_pattern t = Some names)) /\
    names <> [] /\
    open_all w (Py.sorted (map (Pathlib.join (mkdtemp w)) names)) = Ok images /\
    images = first :: rest /\
    thumb_height first = Ok th /\
    1 <= cols /\
    let rows := Py.ceil_div (Z.of_nat (List.length images)) cols in
    d = [("output", Json.JStr (output_prefix ++ ".jpg"));
         ("slides", Json.JInt (Z.of_nat (List.length images)));
         ("grid", Json.JStr (Py.str rows ++ "x" ++ Py.str cols))] /\
    written t
    = [Save (output_prefix ++ ".jpg") "JPEG" 90
         {| PIL.canvas_w := cols * (thumb_w + padding) + padding;
            PIL.canvas_h := rows * (th + padding + label_h) + padding;
            PIL.background := "white";
            PIL.ops := cells cols th 0 images |}].
Proof.
  cbn zeta. intros Hd Hk.
  assert (Hcase :
    exists names,
      (yield "-jpeg" jpg_pattern
         (log (snd (generate_thumbnails w filepath output_prefix cols dpi start)))
       = Some names
       \/ (yield "-jpeg" jpg_pattern
             (log (snd (generate_thumbnails w filepath output_prefix cols dpi start)))
           = Some [] /\
           yield "-png" png_pattern
             (log (snd (generate_thumbnails w filepath output_prefix cols dpi start)))
           = Some names)) /\ names <> []).
  { revert Hd Hk. unfold_run. split_run.
    all: intros Hd Hk; try discriminate Hd; injection Hd as <-; try discriminate Hk.
    all: note_yields.
    all: first
           [ eexists; split; [left; reflexivity | assumption]
           | eexists; split;
             [right; split; [f_equal; eassumption | reflexivity] | assumption] ]. }
  destruct Hcase as (names & Hy & Hne).
  pose proof (run_after_extraction w filepath output_prefix cols dpi names Hy Hne) as Hrun.
  cbn zeta in Hrun. rewrite Hd in Hrun. unfold downstream in Hrun.
  destruct (open_all w (Py.sorted (map (Pathlib.join (mkdtemp w)) names)))
    as [images|e] eqn:Hopen; [|discriminate Hrun].
  destruct (build_grid (can_allocate w) images cols) as [[rows grid]|e] eqn:Hb;
    [|discriminate Hrun].
  destruct (save w (output_prefix ++ ".jpg") grid); [discriminate Hrun|].
  injection Hrun as -> Hw _.
  apply build_grid_inv in Hb.
  destruct Hb as (first & rest & th & Himg & Hth & Hc & -> & -> & _).
  exists names, images, first, rest, th.
  split; [exact Hy|]. split; [exact Hne|]. split; [exact Hopen|].
  split; [exact Himg|]. split; [exact Hth|]. split; [exact Hc|].
  split; [reflexivity | exact Hw].
Qed.

(** Lines 38-83: a run that returns the success payload found n >= 1
    raster files, from the JPEG extraction or, that one having left none,
    from the PNG extraction.  It reports slides = n, the number of files
    found, and rows = ceil(n / cols) with cols >= 1; it wrote one file,
    <prefix>.jpg, as JPEG of quality 90, and the canvas written carries n
    thumbnails and the labels "Slide 0" to "Slide n-1". *)
Theorem success_run (w : World) (filepath output_prefix : string) (cols dpi : Z)
  (d : Json.Dict) :
  let t := log (snd (generate_thumbnails w filepath output_prefix cols dpi start)) in
  fst (generate_thumbnails w filepath output_prefix cols dpi start) = Returned d ->
  Json.has_key "output" d = true ->
  exists names grid,
    (yield "-jpeg" jpg_pattern t = Some names
     \/ (yield "-jpeg" jpg_pattern t = Some [] /\
         yield "-png" png_pattern t = Some names)) /\
    names <> [] /\ 1 <= cols /\
    let n := List.length names in
    let rows := Py.ceil_div (Z.of_nat n) cols in
    d = [("output", Json.JStr (output_prefix ++ ".jpg"));
         ("slides", Json.JInt (Z.of_nat n));
         ("grid", Json.JStr (Py.str rows ++ "x" ++ Py.str cols))] /\
    written t = [Save (output_prefix ++ ".jpg") "JPEG" 90 grid] /\
    List.length (pasted (PIL.ops grid)) = n /\
    labels (PIL.ops grid) = map label (seq 0 n).
Proof.
  cbn zeta. intros Hd Hk.
  destruct (success_inv w filepath output_prefix cols dpi d Hd Hk)
    as (names & images & first & rest & th & Hy & Hne & Hopen & _ & _ & Hc & Hpay & Hw).
  cbn zeta in Hpay, Hw.
  apply open_all_length in Hopen.
  rewrite (Permutation_length (sorted_perm _)), length_map in Hopen.
  exists names. eexists. split; [exact Hy|]. split; [exact Hne|]. split; [exact Hc|].
  rewrite <- Hopen. split; [exact Hpay|]. split; [exact Hw|].
  cbn [PIL.ops]. rewrite pasted_cells, length_map.
  split; [reflexivity|]. apply (labels_cells _ _ _ 0%nat).
Qed.

Lemma success_run_witness :
  exists names grid,
    (yield "-jpeg" jpg_pattern
       (log (snd (generate_thumbnails Samples.fallback_world
                    "deck.pptx" "thumbnails" 4 150 start))) = Some names
     \/ (yield "-jpeg" jpg_pattern
           (log (snd (generate_thumbnails Samples.fallback_world
                        "deck.pptx" "thumbnails" 4 150 start))) = Some [] /\
         yield "-png" png_pattern
           (log (snd (generate_thumbnails Samples.fallback_world
                        "deck.pptx" "thumbnails" 4 150 start))) = Some names)) /\
    names <> [] /\ 1 <= 4 /\
    let n := List.length names in
    let rows := Py.ceil_div (Z.of_nat n) 4 in
    [("output", Json.JStr "thumbnails.jpg"); ("slides", Json.JInt 2);
     ("grid", Json.JStr "1x4")]
    = [("output", Json.JStr ("thumbnails" ++ ".jpg"));
       ("slides", Json.JInt (Z.of_nat n));
       ("grid", Json.JStr (Py.str rows ++ "x" ++ Py.str 4))] /\
    written (log (snd (generate_thumbnails Samples.fallback_world
                         "deck.pptx" "thumbnails" 4 150 start)))
    = [Save ("thumbnails" ++ ".jpg") "JPEG" 90 grid] /\
    List.length (pasted (PIL.ops grid)) = n /\
    labels (PIL.ops grid) = map label (seq 0 n).
Proof.
  apply (success_run Samples.fallback_world "deck.pptx" "thumbnails" 4 150);
    reflexivity.
Defined.

(** Lines 38-51: one raster file Pillow cannot decode aborts the run with
    the decoder's exception, whatever the other files are, and no output
    file is written. *)
Theorem undecodable_page_aborts (w : World) (filepath output_prefix : string)
  (cols dpi : Z) (names : list string) (bad : string) :
  let t := log (snd (generate_thumbnails w filepath output_prefix cols dpi start)) in
  (yield "-jpeg" jpg_pattern t = Some names
   \/ (yield "-jpeg" jpg_pattern t = Some [] /\
       yield "-png" png_pattern t = Some names)) ->
  In bad names ->
  image_open w (Pathlib.join (mkdtemp w) bad) = None ->
  fst (generate_thumbnails w filepath output_prefix cols dpi start)
  = Raised UnidentifiedImageError /\
  written t = [] /\ saved t = [].
Proof.
  cbn zeta. intros Hy Hbad Hnone.
  assert (Hne : names <> []) by (intros ->; destruct Hbad).
  pose proof (run_after_extraction w filepath output_prefix cols dpi names Hy Hne) as Hrun.
  cbn zeta in Hrun. unfold downstream in Hrun.
  destruct (open_all w (Py.sorted (map (Pathlib.join (mkdtemp w)) names)))
    as [images|e] eqn:Hs.
  - exfalso. apply open_all_ok_iff in Hs.
    assert (Hin : In (Pathlib.join (mkdtemp w) bad)
                     (Py.sorted (map (Pathlib.join (mkdtemp w)) names))).
    { apply (Permutation_in _ (Permutation_sym (sorted_perm _))).
      now apply in_map. }
    apply (in_map (image_open w)) in Hin. rewrite Hs, Hnone in Hin.
    apply in_map_iff in Hin. destruct Hin as (? & Hx & _). discriminate Hx.
  - apply open_all_err in Hs. subst e. injection Hrun as Hr Hw _.
    split; [exact Hr|]. split; [exact Hw|].
    now apply written_nil_saved.
Qed.

Lemma undecodable_page_aborts_witness :
  fst (generate_thumbnails MoreSamples.broken_page_world
         "deck.pptx" "thumbnails" 4 150 start)
  = Raised UnidentifiedImageError /\
  written (log (snd (generate_thumbnails MoreSamples.broken_page_world
                       "deck.pptx" "thumbnails" 4 150 start))) = [] /\
  saved (log (snd (generate_thumbnails MoreSamples.broken_page_world
                     "deck.pptx" "thumbnails" 4 150 start))) = [].
Proof.
  apply (undecodable_page_aborts MoreSamples.broken_page_world
           "deck.pptx" "thumbnails" 4 150 ["slide-1.jpg"; "slide-3.jpg"] "slide-3.jpg").
  - left. reflexivity.
  - simpl. right. left. reflexivity.
  - reflexivity.
Defined.

(** Lines 52-78: what goes wrong after the pages were loaded.  When the
    composition raises (no columns, a canvas that cannot be made, a page
    that cannot be read or resized), the run raises the same exception and
    no save is attempted.  When the composition comes to its end and the
    save raises, the run raises what the save raised, that save is the
    only one attempted, and no file counts as written. *)
Theorem composition_failures (w : World) (filepath output_prefix : string)
  (cols dpi : Z) (names : list string) (images : list PIL.Image) :
  let r := fst (generate_thumbnails w filepath output_prefix cols dpi start) in
  let t := log (snd (generate_thumbnails w filepath output_prefix cols dpi start)) in
  (yield "-jpeg" jpg_pattern t = Some names
   \/ (yield "-jpeg" jpg_pattern t = Some [] /\
       yield "-png" png_pattern t = Some names)) ->
  names <> [] ->
  open_all w (Py.sorted (map (Pathlib.join (mkdtemp w)) names)) = Ok images ->
  match build_grid (can_allocate w) images cols with
  | Err e => r = Raised e /\ saved t = [] /\ save_failures t = []
  | Ok (_, grid) =>
      match save w (output_prefix ++ ".jpg") grid with
      | Some e =>
          r = Raised e /\ saved t = [] /\
          save_failures t = [(output_prefix ++ ".jpg", e)]
      | None =>
          saved t = [(output_prefix ++ ".jpg", grid)] /\ save_failures t = []
      end
  end.
Proof.
  cbn zeta. intros Hy Hne Hopen.
  pose proof (run_after_extraction w filepath output_prefix cols dpi names Hy Hne) as Hrun.
  cbn zeta in Hrun. unfold downstream in Hrun. rewrite Hopen in Hrun.
  destruct (build_grid (can_allocate w) images cols) as [[rows grid]|e].
  - destruct (save w (output_prefix ++ ".jpg") grid) as [e|].
    + injection Hrun as Hr Hw Hf. split; [exact Hr|].
      split; [now apply written_nil_saved | exact Hf].
    + injection Hrun as _ Hw Hf. split; [|exact Hf].
      revert Hw.
      generalize (log (snd (generate_thumbnails w filepath output_prefix cols dpi start))).
      intros l. induction l as [|[] l IH]; simpl; try exact IH; [discriminate|].
      intros [= -> _ _ -> Hl]. now rewrite (written_nil_saved l Hl).
  - injection Hrun as Hr Hw Hf. split; [exact Hr|].
    split; [now apply written_nil_saved | exact Hf].
Qed.

Lemma composition_failures_witness :
  (fst (generate_thumbnails Samples.primary_world "deck.pptx" "out/thumbnails" 4 150 start)
   = Raised FileNotFoundError /\
   saved (log (snd (generate_thumbnails Samples.primary_world
                      "deck.pptx" "out/thumbnails" 4 150 start))) = [] /\
   save_failures (log (snd (generate_thumbnails Samples.primary_world
                              "deck.pptx" "out/thumbnails" 4 150 start)))
   = [("out/thumbnails" ++ ".jpg", FileNotFoundError)]) /\
  (fst (generate_thumbnails Samples.primary_world "deck.pptx" "thumbnails" 160 150 start)
   = Raised OSError /\
   saved (log (snd (generate_thumbnails Samples.primary_world
                      "deck.pptx" "thumbnails" 160 150 start))) = [] /\
   save_failures (log (snd (generate_thumbnails Samples.primary_world
                              "deck.pptx" "thumbnails" 160 150 start)))
   = [("thumbnails" ++ ".jpg", OSError)]) /\
  (fst (generate_thumbnails Samples.primary_world "deck.pptx" "thumbnails" 0 150 start)
   = Raised ZeroDivisionError /\
   saved (log (snd (generate_thumbnails Samples.primary_world
                      "deck.pptx" "thumbnails" 0 150 start))) = [] /\
   save_failures (log (snd (generate_thumbnails Samples.primary_world
                              "deck.pptx" "thumbnails" 0 150 start))) = []) /\
  (exists grid,
     build_grid Samples.roomy
       [Samples.picture 1500 1000 "page 1"; Samples.picture 1600 1200 "page 2"] 4
     = Ok (1, grid) /\
     saved (log (snd (generate_thumbnails Samples.primary_world
                        "deck.pptx" "thumbnails" 4 150 start)))
     = [("thumbnails" ++ ".jpg", grid)] /\
     save_failures (log (snd (generate_thumbnails Samples.primary_world
                                "deck.pptx" "thumbnails" 4 150 start))) = []).
Proof.
  split; [|split; [|split]].
  4:{ eexists. split; [reflexivity|].
      refine (composition_failures Samples.primary_world "deck.pptx" "thumbnails" 4 150
                ["slide-2.jpg"; "slide-1.jpg"]
                [Samples.picture 1500 1000 "page 1"; Samples.picture 1600 1200 "page 2"]
                _ _ _).
      - left; reflexivity.
      - discriminate.
      - reflexivity. }
  - refine (composition_failures Samples.primary_world "deck.pptx" "out/thumbnails" 4 150
              ["slide-2.jpg"; "slide-1.jpg"]
              [Samples.picture 1500 1000 "page 1"; Samples.picture 1600 1200 "page 2"]
              _ _ _).
    + left; reflexivity.
    + discriminate.
    + reflexivity.
  - refine (composition_failures Samples.primary_world "deck.pptx" "thumbnails" 160 150
              ["slide-2.jpg"; "slide-1.jpg"]
              [Samples.picture 1500 1000 "page 1"; Samples.picture 1600 1200 "page 2"]
              _ _ _).
    + left; reflexivity.
    + discriminate.
    + reflexivity.
  - refine (composition_failures Samples.primary_world "deck.pptx" "thumbnails" 0 150
              ["slide-2.jpg"; "slide-1.jpg"]
              [Samples.picture 1500 1000 "page 1"; Samples.picture 1600 1200 "page 2"]
              _ _ _).
    + left; reflexivity.
    + discriminate.
    + reflexivity.
Defined.

(** Lines 94-100: once the command line is parsed, the exit status of the
    program is 0 or 1.  When an output file was written the status is 0
    and the one line printed is the success payload naming that file.  With
    status 1 no file was written, and standard output is empty or holds
    the line for a missing input.  A save that raised ends the program
    with status 1, a traceback and nothing on standard output.  Status 0
    does not tell success from failure: it goes with the success payload
    and with the error payload alike. *)
Theorem exit_status_and_output (w : World) (args : Args) :
  let status := fst (main w args) in
  let t := snd (main w args) in
  (status = 0 \/ status = 1) /\
  (saved t <> [] ->
   status = 0 /\ save_failures t = [] /\
   exists grid n rows,
     saved t = [(output args ++ ".jpg", grid)] /\
     printed t
     = [Json.dumps [("output", Json.JStr (output args ++ ".jpg"));
                    ("slides", Json.JInt n);
                    ("grid", Json.JStr (Py.str rows ++ "x" ++ Py.str (cols args)))]]) /\
  (status = 1 ->
   saved t = [] /\
   (printed t = [] \/ printed t = ["Error: File not found: " ++ file args])) /\
  (save_failures t <> [] ->
   status = 1 /\ printed t = [] /\
   exists e, save_failures t = [(output args ++ ".jpg", e)] /\ In (Traceback e) t) /\
  (status = 0 ->
   save_failures t = [] /\
   exists d,
     printed t = [Json.dumps d] /\
     (keys d = ["output"; "slides"; "grid"] \/ keys d = ["error"])).
Proof.
  unfold main. destruct (path_exists w (file args)); cbn [negb].
  2:{ cbn. split; [now right|]. split; [intros H; now destruct H|].
      split; [intros _; split; [reflexivity | now right]|].
      split; [intros H; now destruct H | discriminate]. }
  unfold_run. split_run.
  all: split; [(left; reflexivity) || (right; reflexivity)|].
  all: split;
    [intros Hs;
     first [ exfalso; apply Hs; reflexivity
           | split; [reflexivity|]; split; [reflexivity|];
             eexists _, _, _; split; reflexivity ]|].
  all: split;
    [intros H1;
     first [ discriminate H1
           | split; [reflexivity | (left; reflexivity) || (right; reflexivity)] ]|].
  all: split;
    [intros Hf;
     first [ exfalso; apply Hf; reflexivity
           | split; [reflexivity|]; split; [reflexivity|];
             eexists; split; [reflexivity|];
             cbn; repeat first [left; reflexivity | right] ]
    |intros H0;
     first [ discriminate H0
           | split; [reflexivity|]; eexists; split;
             [reflexivity | (left; reflexivity) || (right; reflexivity)] ]].
Qed.

Lemma exit_status_and_output_witness :
  (fst (main Samples.primary_world Samples.deck_args) = 0 /\
   save_failures (snd (main Samples.primary_world Samples.deck_args)) = [] /\
   exists grid n rows,
     saved (snd (main Samples.primary_world Samples.deck_args))
     = [("thumbnails" ++ ".jpg", grid)] /\
     printed (snd (main Samples.primary_world Samples.deck_args))
     = [Json.dumps [("output", Json.JStr ("thumbnails" ++ ".jpg"));
                    ("slides", Json.JInt n);
                    ("grid", Json.JStr (Py.str rows ++ "x" ++ Py.str 4))]]) /\
  (saved (snd (main Samples.timeout_world Samples.deck_args)) = [] /\
   (printed (snd (main Samples.timeout_world Samples.deck_args)) = [] \/
    printed (snd (main Samples.timeout_world Samples.deck_args))
    = ["Error: File not found: " ++ "deck.pptx"])) /\
  (fst (main Samples.primary_world Samples.missing_directory_args) = 1 /\
   printed (snd (main Samples.primary_world Samples.missing_directory_args)) = [] /\
   exists e,
     save_failures (snd (main Samples.primary_world Samples.missing_directory_args))
     = [("out/thumbnails" ++ ".jpg", e)] /\
     In (Traceback e) (snd (main Samples.primary_world Samples.missing_directory_args))) /\
  (save_failures (snd (main Samples.no_pdf_world Samples.deck_args)) = [] /\
   exists d,
     printed (snd (main Samples.no_pdf_world Samples.deck_args)) = [Json.dumps d] /\
     (keys d = ["output"; "slides"; "grid"] \/ keys d = ["error"])).
Proof.
  split; [|split; [|split]].
  - refine (proj1 (proj2 (exit_status_and_output Samples.primary_world
                            Samples.deck_args)) _).
    vm_compute. discriminate.
  - refine (proj1 (proj2 (proj2 (exit_status_and_output Samples.timeout_world
                                   Samples.deck_args))) _).
    reflexivity.
  - refine (proj1 (proj2 (proj2 (proj2 (exit_status_and_output Samples.primary_world
                                          Samples.missing_directory_args)))) _).
    vm_compute. discriminate.
  - refine (proj2 (proj2 (proj2 (proj2 (exit_status_and_output Samples.no_pdf_world
                                          Samples.deck_args)))) _).
    reflexivity.
Defined.

(** Lines 38-74: on a successful run the thumbnails stand on the canvas
    in ascending order of the paths of the raster files: the i-th
    thumbnail is the image decoded from the i-th path in that order,
    resampled to the shared size. *)
Theorem thumbnails_in_file_order (w : World) (filepath output_prefix : string)
  (cols dpi : Z) (d : Json.Dict) :
  let t := log (snd (generate_thumbnails w filepath output_prefix cols dpi start)) in
  fst (generate_thumbnails w filepath output_prefix cols dpi start) = Returned d ->
  Json.has_key "output" d = true ->
  exists names images th grid,
    (yield "-jpeg" jpg_pattern t = Some names
     \/ (yield "-jpeg" jpg_pattern t = Some [] /\
         yield "-png" png_pattern t = Some names)) /\
    let paths := Py.sorted (map (Pathlib.join (mkdtemp w)) names) in
    ascending paths /\
    Permutation paths (map (Pathlib.join (mkdtemp w)) names) /\
    map (image_open w) paths = map Some images /\
    written t = [Save (output_prefix ++ ".jpg") "JPEG" 90 grid] /\
    pasted (PIL.ops grid)
    = map (fun img => PIL.resize img thumb_w th "LANCZOS") images.
Proof.
  cbn zeta. intros Hd Hk.
  destruct (success_inv w filepath output_prefix cols dpi d Hd Hk)
    as (names & images & first & rest & th & Hy & _ & Hopen & _ & _ & _ & _ & Hw).
  cbn zeta in Hw.
  pose proof (proj1 (open_all_ok_iff _ _ _) Hopen) as Hs.
  exists names, images, th. eexists. split; [exact Hy|].
  split; [apply sorted_ascending|]. split; [apply sorted_perm|].
  split; [exact Hs|]. split; [exact Hw|].
  cbn [PIL.ops]. apply pasted_cells.
Qed.

Lemma thumbnails_in_file_order_witness :
  exists names images th grid,
    (yield "-jpeg" jpg_pattern
       (log (snd (generate_thumbnails Samples.primary_world
                    "deck.pptx" "thumbnails" 4 150 start))) = Some names
     \/ (yield "-jpeg" jpg_pattern
           (log (snd (generate_thumbnails Samples.primary_world
                        "deck.pptx" "thumbnails" 4 150 start))) = Some [] /\
         yield "-png" png_pattern
           (log (snd (generate_thumbnails Samples.primary_world
                        "deck.pptx" "thumbnails" 4 150 start))) = Some names)) /\
    let paths := Py.sorted (map (Pathlib.join (mkdtemp Samples.primary_world)) names) in
    ascending paths /\
    Permutation paths (map (Pathlib.join (mkdtemp Samples.primary_world)) names) /\
    map (image_open Samples.primary_world) paths = map Some images /\
    written (log (snd (generate_thumbnails Samples.primary_world
                         "deck.pptx" "thumbnails" 4 150 start)))
    = [Save ("thumbnails" ++ ".jpg") "JPEG" 90 grid] /\
    pasted (PIL.ops grid)
    = map (fun img => PIL.resize img thumb_w th "LANCZOS") images.
Proof.
  apply (thumbnails_in_file_order Samples.primary_world "deck.pptx" "thumbnails" 4 150
           [("output", Json.JStr "thumbnails.jpg"); ("slides", Json.JInt 2);
            ("grid", Json.JStr "1x4")]);
    reflexivity.
Defined.



End PipelineRuns.
